(** * Access gate of the EduFam admin application

    A shallow embedding of
    - [src/components/common/ProtectedRoute.tsx] (the access gate),
    - [src/components/AppContent.tsx] (the application shell),
    - [src/hooks/useAdminSchoolsData.ts] (the admin schools query),
    - the sidebar header's role label lookup ([getRoleDisplay]),
    followed by the properties the specification states about them.

    JavaScript strings are modelled by [string]; the only operations the
    code applies to them are strict equality, [includes], [slice] and
    [join], all of which act position by position.  A value that may be
    [undefined] or [null] is an [option]. *)

From Stdlib Require Import String Ascii List Bool Arith Lia QArith.
Import ListNotations.
Local Open Scope string_scope.
Local Open Scope list_scope.

(** ** JavaScript primitives used by the components *)

Module Js.

(** Truthiness of a [string | undefined | null]: the empty string and
    the absent value are falsy. *)
Definition truthy (o : option string) : bool :=
  match o with
  | Some s => negb (s =? "")
  | None => false
  end.

(** The narrowing performed by [if (x)] on a
    [string | undefined | null]: the string itself when it is truthy. *)
Definition narrow (o : option string) : option string :=
  match o with
  | Some s => if s =? "" then None else Some s
  | None => None
  end.

(** [s.includes(needle)] on strings. *)
Fixpoint includes (s needle : string) : bool :=
  if prefix needle s then true
  else match s with
       | EmptyString => false
       | String _ rest => includes rest needle
       end.

(** [xs.includes(x)] on arrays of strings (strict equality). *)
Definition array_includes (xs : list string) (x : string) : bool :=
  existsb (String.eqb x) xs.

(** [xs.includes(x)] when [x] may be [undefined]: an array of strings
    never holds [undefined]. *)
Definition array_includes_opt (xs : list string) (x : option string) : bool :=
  match x with
  | Some s => array_includes xs s
  | None => false
  end.

(** [s.slice(0, n)]. *)
Definition slice0 (n : nat) (s : string) : string := substring 0 n s.

(** [xs.join(sep)]. *)
Definition join (sep : string) (xs : list string) : string :=
  String.concat sep xs.

(** [a === b] where [a] may be absent and [b] is a string literal. *)
Definition strict_eq (a : option string) (b : string) : bool :=
  match a with
  | Some s => s =? b
  | None => false
  end.

End Js.

(** ** Data model *)

(** The closed set of role tags, as listed by the sidebar header. *)
Definition role_tags : list string :=
  ["school_director"; "principal"; "teacher"; "parent"; "finance_officer";
   "edufam_admin"].

Definition UserRole := string.

Record UserMetadata := mkUserMetadata {
  status : option string
}.

Record User := mkUser {
  id : option string;
  email : option string;
  role : option string;
  school_id : option string;
  user_metadata : option UserMetadata
}.

(** What [useAuth()] yields. *)
Record AuthState := mkAuthState {
  user : option User;
  isLoading : bool;
  error : option string;
  isInitialized : bool
}.

(** [user.user_metadata?.status]. *)
Definition metadata_status (u : User) : option string :=
  match user_metadata u with
  | Some m => status m
  | None => None
  end.

(** The rendered subtree handed to a component is opaque to it. *)
Definition ReactNode := string.

(** Diagnostic trace events written to the console. *)
Inductive LogEvent :=
| LogChecking (userRole : option string) (allowedRoles : list UserRole)
              (requireSchoolAssignment : bool) (userSchoolId : option string)
              (loading : bool) (err : option string)
| LogNoUser
| LogDeactivated
| LogNoRole
| LogRoleNotAllowed (userRole : string) (required : list UserRole)
| LogSchoolMissing (userRole : string)
| LogGranted (userRole : string)
| LogApp (msg : string).

(** What a component does besides returning a view. *)
Inductive Effect :=
| ConsoleLog (e : LogEvent)
| AssignHref (target : string).

(** The ambient state a component can read. *)
Record World := mkWorld {
  auth : AuthState;
  pathname : string
}.

(** ** A reader/writer monad for render functions

    A render reads the ambient [World] and emits effects in program
    order; it never observes its own effects. *)

Definition M (A : Type) : Type := World -> A * list Effect.

Definition ret {A} (a : A) : M A := fun _ => (a, []).

Definition bind {A B} (m : M A) (f : A -> M B) : M B :=
  fun w => let (a, es) := m w in
           let (b, es') := f a w in
           (b, es ++ es').

Notation "x <- m ;; k" := (bind m (fun x => k))
  (at level 61, m at next level, right associativity).
Notation "m ;;; k" := (bind m (fun _ => k))
  (at level 61, right associativity).

Definition useAuth : M AuthState := fun w => (auth w, []).
Definition console_log (e : LogEvent) : M unit := fun _ => (tt, [ConsoleLog e]).
Definition set_location_href (target : string) : M unit :=
  fun _ => (tt, [AssignHref target]).

(** The href assignments among the emitted effects, in program order. *)
Fixpoint navigations (es : list Effect) : list string :=
  match es with
  | [] => []
  | AssignHref t :: rest => t :: navigations rest
  | ConsoleLog _ :: rest => navigations rest
  end.

(** ** ProtectedRoute.tsx *)

Module Gate.

Record Props := mkProps {
  children : ReactNode;
  allowedRoles : option (list UserRole);
  requireSchoolAssignment : option bool;
  fallbackMessage : option string
}.

(** Defaults of the destructured props. *)
Definition allowedRoles_of (p : Props) : list UserRole :=
  match allowedRoles p with Some l => l | None => [] end.
Definition requireSchoolAssignment_of (p : Props) : bool :=
  match requireSchoolAssignment p with Some b => b | None => false end.
Definition fallbackMessage_of (p : Props) : string :=
  match fallbackMessage p with
  | Some m => m
  | None => "You don't have permission to access this page."
  end.

(** The element returned by the component. *)
Inductive View :=
| LoadingScreen
| DeactivatedAccountMessage
| AuthenticationErrorCard (err : string)
| RoleConfigurationErrorCard (idPrefix : option string) (mail : option string)
| PermissionAlert (message : string) (userRole : string)
                  (required : list UserRole)
| SchoolAssignmentCard (userRole : string) (idPrefix : option string)
| Fragment (content : ReactNode).

(** The detail line of the permission alert:
    [Your role: {user.role} | Required: {allowedRoles.join(", ")}]. *)
Definition alert_detail (userRole : string) (required : list UserRole) : string :=
  ("Your role: " ++ userRole ++ " | Required: " ++ Js.join ", " required)%string.

(** [user.id?.slice(0, 8)]. *)
Definition id_prefix (u : User) : option string :=
  option_map (Js.slice0 8) (id u).

Definition ProtectedRoute (p : Props) : M View :=
  let allowed := allowedRoles_of p in
  let requireSchool := requireSchoolAssignment_of p in
  a <- useAuth ;;
  console_log (LogChecking (match user a with Some u => role u | None => None end)
                           allowed requireSchool
                           (match user a with Some u => school_id u | None => None end)
                           (isLoading a) (error a)) ;;;
  if isLoading a then ret LoadingScreen
  else
    match Js.narrow (error a) with
    | Some e =>
        if Js.includes e "deactivated" || Js.includes e "inactive"
        then ret DeactivatedAccountMessage
        else ret (AuthenticationErrorCard e)
    | None =>
        match user a with
        | None =>
            console_log LogNoUser ;;;
            set_location_href "/" ;;;
            ret LoadingScreen
        | Some u =>
            if Js.strict_eq (metadata_status u) "inactive" then
              console_log LogDeactivated ;;;
              ret DeactivatedAccountMessage
            else
              match Js.narrow (role u) with
              | None =>
                  console_log LogNoRole ;;;
                  ret (RoleConfigurationErrorCard (id_prefix u) (email u))
              | Some r =>
                  if Nat.ltb 0 (List.length allowed)
                     && negb (Js.array_includes allowed r) then
                    console_log (LogRoleNotAllowed r allowed) ;;;
                    ret (PermissionAlert (fallbackMessage_of p) r allowed)
                  else if requireSchool
                          && negb (Js.truthy (school_id u))
                          && negb (Js.array_includes ["edufam_admin"] r) then
                    console_log (LogSchoolMissing r) ;;;
                    ret (SchoolAssignmentCard r (id_prefix u))
                  else
                    console_log (LogGranted r) ;;;
                    ret (Fragment (children p))
              end
        end
    end.

(** *** The decision a render stands for

    The presentation of each branch is read back as the outcome it
    stands for.  An assignment to [window.location.href] is a redirect,
    whatever placeholder is rendered meanwhile. *)

Inductive DenyReason :=
| AuthenticationError (detail : string)
| RoleNotConfigured
| RoleNotPermitted (actual : string) (required : list UserRole)
| SchoolAssignmentRequired.

Inductive Outcome :=
| Pending
| DeactivatedAccountView
| Allow
| RedirectTo (path : string)
| Deny (reason : DenyReason).

Definition outcome_of (r : View * list Effect) : Outcome :=
  match navigations (snd r) with
  | target :: _ => RedirectTo target
  | [] =>
      match fst r with
      | LoadingScreen => Pending
      | DeactivatedAccountMessage => DeactivatedAccountView
      | AuthenticationErrorCard e => Deny (AuthenticationError e)
      | RoleConfigurationErrorCard _ _ => Deny RoleNotConfigured
      | PermissionAlert _ r required => Deny (RoleNotPermitted r required)
      | SchoolAssignmentCard _ _ => Deny SchoolAssignmentRequired
      | Fragment _ => Allow
      end
  end.

Definition evaluate (p : Props) (w : World) : Outcome :=
  outcome_of (ProtectedRoute p w).

(** *** The rule table of the specification

    This second description follows the specification's numbered
    rules, one record per rule, each with a condition that can be asked
    of any input on its own.  It is compared with [evaluate] below. *)

Record Requirement := mkRequirement {
  req_allowedRoles : list UserRole;
  req_requiresSchoolAssignment : bool
}.

Definition requirement_of (p : Props) : Requirement :=
  mkRequirement (allowedRoles_of p) (requireSchoolAssignment_of p).

Inductive RuleName :=
| RLoading | RAuthError | RAbsentPrincipal | RInactive | RMissingRole
| RAllowedRoles | RSchoolAssignment.

Record Rule := mkRule {
  name : RuleName;
  applies : AuthState -> Requirement -> bool;
  result : AuthState -> Requirement -> Outcome
}.

Definition error_text (a : AuthState) : string :=
  match error a with Some e => e | None => "" end.

Definition role_text (a : AuthState) : string :=
  match user a with
  | Some u => match role u with Some r => r | None => "" end
  | None => ""
  end.

Definition on_principal (a : AuthState) (f : User -> bool) : bool :=
  match user a with Some u => f u | None => false end.

Definition rule_loading : Rule :=
  mkRule RLoading (fun a _ => isLoading a) (fun _ _ => Pending).

Definition rule_auth_error : Rule :=
  mkRule RAuthError
    (fun a _ => Js.truthy (error a))
    (fun a _ =>
       if Js.includes (error_text a) "deactivated"
          || Js.includes (error_text a) "inactive"
       then DeactivatedAccountView
       else Deny (AuthenticationError (error_text a))).

Definition rule_absent_principal : Rule :=
  mkRule RAbsentPrincipal
    (fun a _ => match user a with None => true | Some _ => false end)
    (fun _ _ => RedirectTo "/").

Definition rule_inactive : Rule :=
  mkRule RInactive
    (fun a _ => on_principal a (fun u => Js.strict_eq (metadata_status u) "inactive"))
    (fun _ _ => DeactivatedAccountView).

Definition rule_missing_role : Rule :=
  mkRule RMissingRole
    (fun a _ => on_principal a (fun u => negb (Js.truthy (role u))))
    (fun _ _ => Deny RoleNotConfigured).

Definition rule_allowed_roles : Rule :=
  mkRule RAllowedRoles
    (fun a q => on_principal a (fun u =>
       negb (Nat.eqb (List.length (req_allowedRoles q)) 0)
       && negb (Js.array_includes_opt (req_allowedRoles q) (role u))))
    (fun a q => Deny (RoleNotPermitted (role_text a) (req_allowedRoles q))).

Definition rule_school_assignment : Rule :=
  mkRule RSchoolAssignment
    (fun a q => on_principal a (fun u =>
       req_requiresSchoolAssignment q
       && negb (Js.strict_eq (role u) "edufam_admin")
       && negb (Js.truthy (school_id u))))
    (fun _ _ => Deny SchoolAssignmentRequired).

Definition gate_rules : list Rule :=
  [rule_loading; rule_auth_error; rule_absent_principal; rule_inactive;
   rule_missing_role; rule_allowed_roles; rule_school_assignment].

(** First matching rule wins; [Allow] when none matches. *)
Fixpoint first_match (rs : list Rule) (a : AuthState) (q : Requirement) : Outcome :=
  match rs with
  | [] => Allow
  | r :: rest => if applies r a q then result r a q else first_match rest a q
  end.

(** The input gets past the first [k] rules. *)
Definition reaches (k : nat) (a : AuthState) (q : Requirement) : bool :=
  forallb (fun r => negb (applies r a q)) (firstn k gate_rules).

End Gate.

(** ** AppContent.tsx *)

Module Shell.

Record DbStatus := mkDbStatus {
  connected : bool;
  db_error : option string
}.

(** The result of [RouteGuard.checkAccess]. *)
Record AccessCheck := mkAccessCheck {
  hasAccess : bool;
  redirectTo : option string;
  access_error : option string
}.

(** The component's [useState] cells. *)
Record State := mkState {
  showLogin : bool;
  dbStatus : option DbStatus;
  isCheckingDb : bool;
  accessCheck : option AccessCheck
}.

Definition initial_state : State :=
  mkState false (Some (mkDbStatus true None)) false None.

Definition setAccessCheck (v : option AccessCheck) (s : State) : State :=
  mkState (showLogin s) (dbStatus s) (isCheckingDb s) v.

(** The route guard lives outside these files; the shell only calls
    its two entry points. *)
Class RouteGuard := mkRouteGuard {
  RouteConfig : Type;
  getRouteConfig : string -> RouteConfig;
  checkAccess : User -> RouteConfig -> AccessCheck
}.

Definition read_pathname : M string := fun w => (pathname w, []).

(** The body of the [useEffect]: recompute the access check and
    navigate when it names a redirect other than [/unauthorized]. *)
Definition checkRouteAccess `{RouteGuard} (s : State) : M State :=
  a <- useAuth ;;
  match user a with
  | None => ret (setAccessCheck None s)
  | Some u =>
      currentPath <- read_pathname ;;
      let routeConfig := getRouteConfig currentPath in
      let access := checkAccess u routeConfig in
      let s' := setAccessCheck (Some access) s in
      if hasAccess access then ret s'
      else
        match Js.narrow (redirectTo access) with
        | None => ret s'
        | Some target =>
            if target =? "/unauthorized" then ret s'
            else set_location_href target ;;; ret s'
        end
  end.

Inductive View :=
| SystemErrorState
| LoadingScreen
| DatabaseErrorState (err : string)
| DeactivatedAccountMessage
| AuthenticationErrorState (err : string)
| AccountConfigurationErrorState
| UnauthorizedPage
| Layout (content : option ReactNode).

(** [useAuth()] before the defensive check on its result. *)
Definition useAuth_raw : M (option AuthState) := fun w => (Some (auth w), []).

Definition AppContent (children : option ReactNode) (s : State) : M View :=
  authState <- useAuth_raw ;;
  match authState with
  | None =>
      console_log (LogApp "AppContent: Invalid auth state") ;;;
      ret SystemErrorState
  | Some a =>
      console_log (LogApp "AppContent: State:") ;;;
      if negb (isInitialized a) || isLoading a || isCheckingDb s then
        console_log (LogApp "AppContent: Loading...") ;;;
        ret LoadingScreen
      else if match dbStatus s with
              | Some d => negb (connected d)
              | None => false
              end then
        console_log (LogApp "AppContent: Database connection error") ;;;
        ret (DatabaseErrorState
               (match dbStatus s with
                | Some d => match Js.narrow (db_error d) with
                            | Some e => e
                            | None => "Connection failed"
                            end
                | None => "Connection failed"
                end))
      else
        match Js.narrow (error a) with
        | Some authError =>
            console_log (LogApp "AppContent: Auth error:") ;;;
            if Js.includes authError "deactivated" || Js.includes authError "inactive"
            then ret DeactivatedAccountMessage
            else ret (AuthenticationErrorState authError)
        | None =>
            match user a with
            | None =>
                console_log (LogApp
                  "AppContent: No user - this should not happen with ProtectedRoute") ;;;
                ret LoadingScreen
            | Some u =>
                if Js.strict_eq (metadata_status u) "inactive" then
                  console_log (LogApp "AppContent: User account is deactivated") ;;;
                  ret DeactivatedAccountMessage
                else if negb (Js.truthy (role u)) then
                  console_log (LogApp "AppContent: User has no role assigned") ;;;
                  ret AccountConfigurationErrorState
                else
                  match accessCheck s with
                  | Some c =>
                      if negb (hasAccess c) then
                        console_log (LogApp "AppContent: Access denied:") ;;;
                        if Js.strict_eq (redirectTo c) "/unauthorized"
                        then ret UnauthorizedPage
                        else ret LoadingScreen
                      else
                        console_log (LogApp
                          "AppContent: User authenticated and authorized, showing main app") ;;;
                        ret (Layout (Js.narrow children))
                  | None =>
                      console_log (LogApp
                        "AppContent: User authenticated and authorized, showing main app") ;;;
                      ret (Layout (Js.narrow children))
                  end
            end
        end
  end.

(** The states the component can be in: the initial one, and any
    state left by a run of the effect.  No other setter is ever
    called. *)
Inductive reachable `{RouteGuard} : State -> Prop :=
| reach_initial : reachable initial_state
| reach_effect s w : reachable s -> reachable (fst (checkRouteAccess s w)).

End Shell.

(** ** SidebarHeader: the role label lookup *)

Definition getRoleDisplay (r : string) : string :=
  if r =? "school_director" then "School Director"
  else if r =? "principal" then "Principal"
  else if r =? "teacher" then "Teacher"
  else if r =? "parent" then "Parent"
  else if r =? "finance_officer" then "Finance Officer"
  else if r =? "edufam_admin" then "EduFam Admin"
  else r.

(** The line under the application name:
    [getRoleDisplay(user?.role || "")]. *)
Definition SidebarHeader : M string :=
  a <- useAuth ;;
  ret (getRoleDisplay
         (match user a with
          | Some u => match Js.narrow (role u) with
                      | Some r => r
                      | None => ""
                      end
          | None => ""
          end)).

(** ** useAdminSchoolsData.ts *)

Module Hooks.

(** The values the backend can hand back.  A number received over the
    wire is a finite double, hence a rational; only whether it is zero
    matters to the code. *)
#[warnings="-register-all"]
Inductive Value :=
| JUndefined
| JNull
| JBool (b : bool)
| JNumber (q : Q)
| JString (s : string)
| JArray (items : list Value)
| JObject (fields : list (string * Value)).

Definition truthy (v : Value) : bool :=
  match v with
  | JUndefined | JNull => false
  | JBool b => b
  | JNumber q => negb (Qeq_bool q 0)
  | JString s => negb (s =? "")
  | JArray _ | JObject _ => true
  end.

(** What the query function throws. *)
Inductive Thrown :=
| Error (message : string)
| TypeError.

Definition Result (A : Type) : Type := Thrown + A.
Definition ok {A} (a : A) : Result A := inr a.
Definition throw {A} (e : Thrown) : Result A := inl e.

Definition rbind {A B} (m : Result A) (f : A -> Result B) : Result B :=
  match m with
  | inl e => inl e
  | inr a => f a
  end.

Notation "x <~ m ;; k" := (rbind m (fun x => k))
  (at level 61, m at next level, right associativity).

Fixpoint lookup_field (k : string) (fields : list (string * Value)) : Value :=
  match fields with
  | [] => JUndefined
  | (k', v) :: rest => if k' =? k then v else lookup_field k rest
  end.

(** [v.k]: reading a property of [null] or [undefined] throws; a
    primitive or an array has no own property of that name. *)
Definition member (v : Value) (k : string) : Result Value :=
  match v with
  | JUndefined | JNull => throw TypeError
  | JObject fields => ok (lookup_field k fields)
  | _ => ok JUndefined
  end.

(** The callback given to [filter]. *)
Definition keep_school (school : Value) : Result bool :=
  if negb (truthy school) then ok false
  else
    i <~ member school "id" ;;
    if negb (truthy i) then ok false else ok true.

(** [xs.filter(f)] for a callback that may throw. *)
Fixpoint filter_array (f : Value -> Result bool) (xs : list Value)
  : Result (list Value) :=
  match xs with
  | [] => ok []
  | x :: rest =>
      b <~ f x ;;
      kept <~ filter_array f rest ;;
      ok (if b then x :: kept else kept)
  end.

(** What [supabase.rpc] resolves to. *)
Record RpcResponse := mkRpcResponse {
  data : Value;
  rpc_error : option string   (* [error.message] when [error] is set *)
}.

(** [Array.isArray(data) ? data : []]. *)
Definition as_array (d : Value) : list Value :=
  match d with
  | JArray items => items
  | _ => []
  end.

Section QueryFn.

(** The two helpers of [@/utils/apiOptimization], which these files only
    call.  [validateQueryParams] may throw.  [execute] runs the callback,
    possibly more than once; [callback k] is the outcome of its [k]-th
    run. *)
Variable validateQueryParams : option string -> string -> Result unit.
Variable execute : (nat -> Result (list Value)) -> Result (list Value).

(** The responses of the successive calls to the remote procedure. *)
Variable rpc : nat -> RpcResponse.

(** The callback passed to [ApiCallWrapper.execute].  The log line
    before the filter reads [data?.length] and [data?.[0]?.name] through
    optional chaining and cannot throw; console output is left out
    here. *)
Definition fetchSchools (u : User) (userRole : string) (attempt : nat)
  : Result (list Value) :=
  _ <~ validateQueryParams (id u) userRole ;;
  let response := rpc attempt in
  match rpc_error response with
  | Some message => throw (Error ("Failed to fetch schools: " ++ message)%string)
  | None =>
      let schools := as_array (data response) in
      validatedSchools <~ filter_array keep_school schools ;;
      ok validatedSchools
  end.

Definition queryFn (usr : option User) : Result (list Value) :=
  match usr with
  | None => throw (Error "User authentication required")
  | Some u =>
      match Js.narrow (role u) with
      | None => throw (Error "User role not loaded yet")
      | Some r =>
          if negb (r =? "edufam_admin") then
            throw (Error "Access denied. Only EduFam/Elimisha administrators can access school data.")
          else
            result <~ execute (fetchSchools u r) ;;
            ok result
      end
  end.

End QueryFn.

(** [enabled]. *)
Definition enabled (usr : option User) : bool :=
  match usr with
  | None => false
  | Some u => Js.truthy (role u) && Js.strict_eq (role u) "edufam_admin"
  end.

(** [retry]. *)
Definition retry (failureCount : nat) (message : string) : bool :=
  if Js.includes message "authentication" || Js.includes message "Access denied"
  then false
  else Nat.ltb failureCount 2.

(** [retryDelay]. *)
Definition retryDelay (attemptIndex : Z) : Z :=
  Z.min (1000 * 2 ^ attemptIndex) 30000.

(** The verdict of the filter callback as a plain test: an object whose
    [id] field is truthy. *)
Definition keeps (v : Value) : bool :=
  match v with
  | JObject fields => truthy (lookup_field "id" fields)
  | _ => false
  end.

(** A school the hook lets through: neither [null] nor [undefined], an
    object whose [id] is truthy. *)
Definition has_truthy_id (v : Value) : Prop :=
  v <> JNull /\ v <> JUndefined /\
  exists i, member v "id" = ok i /\ truthy i = true.

End Hooks.

(** ** Sample inputs *)

Module Samples.

Definition principal (r : option string) (school : option string)
           (st : option string) : User :=
  mkUser (Some "3f2a9c1e-77aa-4b1e-9d55-0c1d2e3f4a5b") (Some "user@example.org")
         r school (Some (mkUserMetadata st)).

Definition teacher : User := principal (Some "teacher") (Some "school-1") (Some "active").
Definition inactive_teacher : User :=
  principal (Some "teacher") (Some "school-1") (Some "inactive").
Definition parent : User := principal (Some "parent") (Some "school-1") None.
Definition capital_teacher : User := principal (Some "Teacher") (Some "school-1") None.
Definition unassigned_principal : User := principal (Some "principal") None None.
Definition unassigned_admin : User := principal (Some "edufam_admin") None None.
Definition roleless : User := principal None (Some "school-1") None.
Definition empty_role : User := principal (Some "") (Some "school-1") None.

(** Authentication resolved: not loading, initialised. *)
Definition resolved (u : option User) (err : option string) : World :=
  mkWorld (mkAuthState u false err true) "/dashboard".

Definition loading (u : option User) (err : option string) : World :=
  mkWorld (mkAuthState u true err false) "/dashboard".

Definition open_route : Gate.Props := Gate.mkProps "page" None None None.
Definition staff_route : Gate.Props :=
  Gate.mkProps "page" (Some ["teacher"; "principal"]) None None.
Definition school_route : Gate.Props :=
  Gate.mkProps "page" None (Some true) None.
Definition admin_school_route : Gate.Props :=
  Gate.mkProps "page" (Some ["edufam_admin"]) (Some true) (Some "Admins only.").

(** A route guard that sends every principal to [/login]. *)
Definition strict_guard : Shell.RouteGuard :=
  Shell.mkRouteGuard string (fun path => path)
    (fun _ _ => Shell.mkAccessCheck false (Some "/login") (Some "denied")).

Definition school (ident : Hooks.Value) (label : string) : Hooks.Value :=
  Hooks.JObject [("id", ident); ("name", Hooks.JString label)].

Definition rows : list Hooks.Value :=
  [school (Hooks.JNumber 1) "North"; Hooks.JNull;
   Hooks.JObject [("name", Hooks.JString "No id")];
   school (Hooks.JString "") "Empty id"; school (Hooks.JNumber 0) "Zero id";
   Hooks.JString "stray"; school (Hooks.JString "b7") "South"].

(** The remote procedure fails once, then answers [rows]. *)
Definition flaky_rpc (attempt : nat) : Hooks.RpcResponse :=
  match attempt with
  | O => Hooks.mkRpcResponse Hooks.JNull (Some "upstream timeout")
  | S _ => Hooks.mkRpcResponse (Hooks.JArray rows) None
  end.

(** A wrapper that runs its callback a second time when the first run
    throws. *)
Definition retry_once (callback : nat -> Hooks.Result (list Hooks.Value))
  : Hooks.Result (list Hooks.Value) :=
  match callback 0%nat with
  | inr v => inr v
  | inl _ => callback 1%nat
  end.

Definition kept_rows : list Hooks.Value :=
  [school (Hooks.JNumber 1) "North"; school (Hooks.JString "b7") "South"].

End Samples.

(** * Properties *)

(** ** Strings and arrays *)

Definition contains (s needle : string) : Prop :=
  exists before after, s = (before ++ needle ++ after)%string.

Lemma prefix_true_iff (t s : string) :
  prefix t s = true <-> exists rest, s = (t ++ rest)%string.
Proof.
  revert s. induction t as [|c t IH]; intros s.
  - split; [intros _; now exists s | intros _; now destruct s].
  - destruct s as [|d s]; simpl.
    + split; [discriminate | intros [rest H]; discriminate].
    + destruct (Ascii.ascii_dec c d) as [->|Hne].
      * rewrite IH. split; intros [rest H]; exists rest.
        -- now rewrite H.
        -- now injection H.
      * split; [discriminate|].
        intros [rest H]. injection H as H1 _. congruence.
Qed.

Lemma includes_true_iff (s needle : string) :
  Js.includes s needle = true <-> contains s needle.
Proof.
  unfold contains. induction s as [|c s IH].
  - change (Js.includes "" needle)
      with (if prefix needle "" then true else false).
    destruct (prefix needle "") eqn:Hp.
    + split; [intros _|reflexivity].
      apply prefix_true_iff in Hp. destruct Hp as [rest H].
      exists "", rest. exact H.
    + split; [discriminate|].
      intros (b & a & H). destruct b; [|discriminate].
      simpl in H. assert (prefix needle "" = true) by (apply prefix_true_iff; eauto).
      congruence.
  - change (Js.includes (String c s) needle)
      with (if prefix needle (String c s) then true else Js.includes s needle).
    destruct (prefix needle (String c s)) eqn:Hp.
    + split; [intros _|reflexivity].
      apply prefix_true_iff in Hp. destruct Hp as [rest H].
      exists "", rest. exact H.
    + rewrite IH. split.
      * intros (b & a & H). exists (String c b), a. simpl. now rewrite H.
      * intros (b & a & H). destruct b as [|d b].
        -- simpl in H.
           assert (prefix needle (String c s) = true)
             by (apply prefix_true_iff; eauto).
           congruence.
        -- simpl in H. injection H as _ H. eauto.
Qed.

Lemma includes_false_iff (s needle : string) :
  Js.includes s needle = false <-> ~ contains s needle.
Proof.
  rewrite <- includes_true_iff. destruct (Js.includes s needle); split;
    congruence.
Qed.

Lemma array_includes_true_iff (xs : list string) (x : string) :
  Js.array_includes xs x = true <-> In x xs.
Proof.
  unfold Js.array_includes. rewrite existsb_exists. split.
  - intros (y & Hin & Heq). apply String.eqb_eq in Heq. now subst.
  - intros Hin. exists x. split; [assumption | apply String.eqb_refl].
Qed.

Lemma array_includes_false_iff (xs : list string) (x : string) :
  Js.array_includes xs x = false <-> ~ In x xs.
Proof.
  rewrite <- array_includes_true_iff.
  destruct (Js.array_includes xs x); split; congruence.
Qed.

Lemma narrow_truthy (o : option string) :
  Js.truthy o = match Js.narrow o with Some _ => true | None => false end.
Proof.
  destruct o as [s|]; simpl; [destruct (s =? ""); reflexivity | reflexivity].
Qed.

Lemma narrow_some (o : option string) (s : string) :
  Js.narrow o = Some s <-> o = Some s /\ s <> "".
Proof.
  destruct o as [t|]; simpl.
  - destruct (String.eqb_spec t "") as [->|Hne]; split.
    + discriminate.
    + intros [H Hs]. congruence.
    + intros H. injection H as ->. auto.
    + intros [H _]. exact H.
  - split; [discriminate | intros [H _]; discriminate].
Qed.

(** ** The access gate *)

Import Gate.

Ltac run_gate :=
  unfold evaluate, ProtectedRoute, outcome_of, bind, ret, useAuth, console_log,
    set_location_href;
  cbn -[Js.array_includes Js.includes Js.truthy Js.narrow Js.strict_eq
        Nat.ltb List.length].

(** The gate's outcome, branch by branch, with the effect plumbing run. *)
Lemma evaluate_unfold (p : Props) (w : World) :
  evaluate p w =
  let a := auth w in
  if isLoading a then Pending
  else match Js.narrow (error a) with
       | Some e =>
           if Js.includes e "deactivated" || Js.includes e "inactive"
           then DeactivatedAccountView
           else Deny (AuthenticationError e)
       | None =>
           match user a with
           | None => RedirectTo "/"
           | Some u =>
               if Js.strict_eq (metadata_status u) "inactive"
               then DeactivatedAccountView
               else match Js.narrow (role u) with
                    | None => Deny RoleNotConfigured
                    | Some r =>
                        if Nat.ltb 0 (List.length (allowedRoles_of p))
                           && negb (Js.array_includes (allowedRoles_of p) r)
                        then Deny (RoleNotPermitted r (allowedRoles_of p))
                        else if requireSchoolAssignment_of p
                                && negb (Js.truthy (school_id u))
                                && negb (Js.array_includes ["edufam_admin"] r)
                        then Deny SchoolAssignmentRequired
                        else Allow
                    end
           end
       end.
Proof.
  destruct w as [[usr ld err ini] path]. run_gate.
  destruct ld; [reflexivity|].
  destruct (Js.narrow err) as [e|].
  - destruct (Js.includes e "deactivated" || Js.includes e "inactive");
      reflexivity.
  - destruct usr as [u|]; [|reflexivity].
    destruct (Js.strict_eq (metadata_status u) "inactive"); [reflexivity|].
    destruct (Js.narrow (role u)) as [r|]; [|reflexivity].
    destruct (Nat.ltb 0 (List.length (allowedRoles_of p))
              && negb (Js.array_includes (allowedRoles_of p) r));
      [reflexivity|].
    destruct (requireSchoolAssignment_of p && negb (Js.truthy (school_id u))
              && negb (Js.array_includes ["edufam_admin"] r)); reflexivity.
Qed.

(** What [first_match] returns: the result of the rule of least index
    whose condition holds, or [Allow] when no condition holds. *)
Lemma first_match_least (rs : list Rule) (a : AuthState) (q : Requirement) :
  (exists k r,
      nth_error rs k = Some r /\ applies r a q = true /\
      (forall j r', (j < k)%nat -> nth_error rs j = Some r' -> applies r' a q = false) /\
      first_match rs a q = result r a q)
  \/ ((forall r, In r rs -> applies r a q = false) /\ first_match rs a q = Allow).
Proof.
  induction rs as [|r rs IH]; simpl.
  - right. split; [intros r []|reflexivity].
  - destruct (applies r a q) eqn:Hr.
    + left. exists 0%nat, r. repeat split; try assumption.
      intros j r' Hj. lia.
    + destruct IH as [(k & r0 & Hk & Hap & Hlt & Heq) | [Hnone Heq]].
      * left. exists (S k), r0. repeat split; try assumption.
        intros [|j] r' Hj Hn; simpl in Hn.
        -- injection Hn as <-. assumption.
        -- apply (Hlt j); [lia | assumption].
      * right. split; [|assumption].
        intros r' [<-|Hin]; [assumption | now apply Hnone].
Qed.

(** The component computes what the rule table prescribes. *)
Lemma evaluate_first_match (p : Props) (w : World) :
  evaluate p w = first_match gate_rules (auth w) (requirement_of p).
Proof.
  rewrite evaluate_unfold.
  destruct w as [[usr ld err ini] path].
  cbn -[Js.array_includes Js.includes Js.truthy Js.narrow Js.strict_eq
        Nat.ltb List.length].
  destruct ld; [reflexivity|].
  rewrite (narrow_truthy err). unfold error_text.
  destruct (Js.narrow err) as [e|] eqn:He.
  - apply narrow_some in He. destruct He as [-> _]. reflexivity.
  - destruct usr as [u|]; [|reflexivity].
    cbn -[Js.array_includes Js.includes Js.truthy Js.narrow Js.strict_eq
          Nat.ltb List.length].
    destruct (Js.strict_eq (metadata_status u) "inactive"); [reflexivity|].
    rewrite (narrow_truthy (role u)). unfold role_text.
    destruct (Js.narrow (role u)) as [r|] eqn:Hr; [|reflexivity].
    apply narrow_some in Hr. destruct Hr as [Hr _]. rewrite Hr.
    cbn -[Js.array_includes Js.includes Js.truthy Js.narrow Nat.ltb List.length].
    assert (Hlen : Nat.ltb 0 (List.length (allowedRoles_of p))
                   = negb (Nat.eqb (List.length (allowedRoles_of p)) 0))
      by (destruct (allowedRoles_of p); reflexivity).
    rewrite Hlen.
    destruct (negb (Nat.eqb (List.length (allowedRoles_of p)) 0)
              && negb (Js.array_includes (allowedRoles_of p) r)); [reflexivity|].
    unfold Js.array_includes at 1. simpl existsb. rewrite orb_false_r.
    destruct (requireSchoolAssignment_of p), (Js.truthy (school_id u)),
      (r =? "edufam_admin"); reflexivity.
Qed.

(** C1.  For every principal and route requirement the gate's outcome is
    that of the first rule, in the order loading, authentication error,
    absent principal, inactive status, missing role, allowed roles, school
    assignment, whose condition holds; when no condition holds the
    outcome is [Allow]. *)
Theorem gate_first_matching_rule_wins (p : Props) (w : World) :
  map name gate_rules =
    [RLoading; RAuthError; RAbsentPrincipal; RInactive; RMissingRole;
     RAllowedRoles; RSchoolAssignment]
  /\
  ((exists k r,
       nth_error gate_rules k = Some r /\
       applies r (auth w) (requirement_of p) = true /\
       (forall j r', (j < k)%nat -> nth_error gate_rules j = Some r' ->
                     applies r' (auth w) (requirement_of p) = false) /\
       evaluate p w = result r (auth w) (requirement_of p))
   \/
   ((forall r, In r gate_rules -> applies r (auth w) (requirement_of p) = false) /\
    evaluate p w = Allow)).
Proof.
  split; [reflexivity|].
  rewrite evaluate_first_match. apply first_match_least.
Qed.

Import Samples.

(** The scenarios of the specification, run on the component. *)
Example scenario_A : evaluate staff_route (resolved None None) = RedirectTo "/".
Proof. reflexivity. Qed.

Example scenario_B :
  evaluate staff_route (resolved (Some inactive_teacher) None) = DeactivatedAccountView.
Proof. reflexivity. Qed.

Example scenario_C :
  evaluate staff_route (resolved (Some parent) None)
  = Deny (RoleNotPermitted "parent" ["teacher"; "principal"]).
Proof. reflexivity. Qed.

Example scenario_D :
  evaluate school_route (resolved (Some unassigned_principal) None)
  = Deny SchoolAssignmentRequired.
Proof. reflexivity. Qed.

Example scenario_E :
  evaluate school_route (resolved (Some unassigned_admin) None) = Allow.
Proof. reflexivity. Qed.

Example scenario_F :
  evaluate staff_route (resolved (Some roleless) None) = Deny RoleNotConfigured.
Proof. reflexivity. Qed.

(** Order matters: inputs on which two rules' conditions hold at once
    get the outcome of the earlier one. *)
Example loading_before_error :
  applies rule_loading (auth (loading None (Some "boom"))) (requirement_of open_route) = true /\
  applies rule_auth_error (auth (loading None (Some "boom"))) (requirement_of open_route) = true /\
  evaluate open_route (loading None (Some "boom")) = Pending.
Proof. repeat split. Qed.

Example error_before_absent_principal :
  applies rule_auth_error (auth (resolved None (Some "boom"))) (requirement_of open_route) = true /\
  applies rule_absent_principal (auth (resolved None (Some "boom"))) (requirement_of open_route) = true /\
  evaluate open_route (resolved None (Some "boom")) = Deny (AuthenticationError "boom").
Proof. repeat split. Qed.

Example inactive_before_missing_role :
  let w := resolved (Some (principal None None (Some "inactive"))) None in
  applies rule_inactive (auth w) (requirement_of staff_route) = true /\
  applies rule_missing_role (auth w) (requirement_of staff_route) = true /\
  evaluate staff_route w = DeactivatedAccountView.
Proof. repeat split. Qed.

Example missing_role_before_allowed_roles :
  let w := resolved (Some empty_role) None in
  applies rule_missing_role (auth w) (requirement_of staff_route) = true /\
  applies rule_allowed_roles (auth w) (requirement_of staff_route) = true /\
  evaluate staff_route w = Deny RoleNotConfigured.
Proof. repeat split. Qed.

Example allowed_roles_before_school_assignment :
  let w := resolved (Some unassigned_principal) None in
  applies rule_allowed_roles (auth w) (requirement_of admin_school_route) = true /\
  applies rule_school_assignment (auth w) (requirement_of admin_school_route) = true /\
  evaluate admin_school_route w = Deny (RoleNotPermitted "principal" ["edufam_admin"]).
Proof. repeat split. Qed.

(** Getting past the first [k] rules leaves the remaining ones. *)
Lemma first_match_skip (k : nat) (rs : list Rule) (a : AuthState) (q : Requirement) :
  forallb (fun r => negb (applies r a q)) (firstn k rs) = true ->
  first_match rs a q = first_match (skipn k rs) a q.
Proof.
  revert rs. induction k as [|k IH]; intros rs H; [reflexivity|].
  destruct rs as [|r rs]; [reflexivity|].
  simpl in H. apply andb_true_iff in H. destruct H as [Hr H].
  simpl. apply negb_true_iff in Hr. rewrite Hr. now apply IH.
Qed.

Lemma evaluate_after (k : nat) (p : Props) (w : World) :
  reaches k (auth w) (requirement_of p) = true ->
  evaluate p w = first_match (skipn k gate_rules) (auth w) (requirement_of p).
Proof.
  intros H. rewrite evaluate_first_match. now apply first_match_skip.
Qed.

(** What it takes to get past the first five rules. *)
Lemma reaches_allowed_roles (a : AuthState) (q : Requirement) :
  reaches 5 a q = true ->
  isLoading a = false /\ Js.truthy (error a) = false /\
  exists u r, user a = Some u /\ role u = Some r /\ r <> "" /\
              Js.strict_eq (metadata_status u) "inactive" = false.
Proof.
  unfold reaches. destruct a as [usr ld err ini].
  cbn -[Js.truthy Js.strict_eq].
  rewrite !andb_true_iff, !negb_true_iff.
  intros (Hld & Herr & Husr & Hst & Hrole & _).
  destruct usr as [u|]; [|discriminate].
  cbn -[Js.truthy Js.strict_eq] in Hst, Hrole.
  apply negb_false_iff in Hrole.
  repeat split; try assumption.
  destruct (role u) as [r|] eqn:Hr; [|discriminate].
  exists u, r. repeat split; try assumption.
  intros ->. discriminate.
Qed.

(** *** Rule 2: authentication errors *)

Lemma evaluate_on_error (p : Props) (w : World) (e : string) :
  isLoading (auth w) = false -> error (auth w) = Some e -> e <> "" ->
  evaluate p w =
  if Js.includes e "deactivated" || Js.includes e "inactive"
  then DeactivatedAccountView
  else Deny (AuthenticationError e).
Proof.
  intros Hld Herr Hne. rewrite evaluate_unfold. cbv zeta. rewrite Hld.
  assert (Hn : Js.narrow (error (auth w)) = Some e)
    by (apply narrow_some; auto).
  rewrite Hn. reflexivity.
Qed.

(** The same authentication state with the reported error cleared. *)
Definition without_error (w : World) : World :=
  mkWorld (mkAuthState (user (auth w)) (isLoading (auth w)) None
                       (isInitialized (auth w)))
          (pathname w).

(** C2, as amended.  Once loading is over, for every non-empty error
    string: if it contains "deactivated" or "inactive" the gate shows the
    deactivated-account view, otherwise it denies with "authentication
    error" and the error text as detail; whether a principal is present
    plays no part.  An empty error string is treated as no error: the
    gate decides exactly as it does when no error is reported. *)
Theorem auth_error_classification (p : Props) (w : World) (e : string) :
  error (auth w) = Some e ->
  (isLoading (auth w) = false -> e <> "" ->
   (contains e "deactivated" \/ contains e "inactive" ->
    evaluate p w = DeactivatedAccountView)
   /\
   (~ contains e "deactivated" -> ~ contains e "inactive" ->
    evaluate p w = Deny (AuthenticationError e)))
  /\ (e = "" -> evaluate p w = evaluate p (without_error w)).
Proof.
  intros Herr. split.
  - intros Hld Hne. rewrite (evaluate_on_error p w e Hld Herr Hne). split.
    + intros [H|H]; apply includes_true_iff in H; rewrite H;
        [reflexivity | now rewrite orb_true_r].
    + intros H1 H2. apply includes_false_iff in H1, H2. now rewrite H1, H2.
  - intros ->. rewrite !evaluate_unfold. cbv zeta. unfold without_error.
    cbn [auth user isLoading error]. rewrite Herr. reflexivity.
Qed.

Lemma auth_error_classification_witness :
  evaluate staff_route
    (resolved (Some teacher) (Some "Your account has been deactivated"))
  = DeactivatedAccountView.
Proof.
  apply (auth_error_classification staff_route
           (resolved (Some teacher) (Some "Your account has been deactivated"))
           "Your account has been deactivated").
  - reflexivity.
  - reflexivity.
  - discriminate.
  - left. exists "Your account has been ", "". reflexivity.
Defined.

(** C2, as stated, fails on two kinds of input.  The gate tests the
    error by truthiness, so an empty text is no error at all and the
    principal rules decide; and while authentication is loading the gate
    is pending whatever the error says. *)
Lemma empty_error_text_is_no_error :
  error (auth (resolved None (Some ""))) = Some ""
  /\ Js.includes "" "deactivated" = false
  /\ Js.includes "" "inactive" = false
  /\ evaluate open_route (resolved None (Some "")) = RedirectTo "/"
  /\ evaluate open_route (resolved (Some teacher) (Some "")) = Allow
  /\ evaluate open_route (resolved None (Some "")) <> Deny (AuthenticationError "")
  /\ error (auth (loading (Some teacher) (Some "Account deactivated")))
     = Some "Account deactivated"
  /\ Js.includes "Account deactivated" "deactivated" = true
  /\ evaluate open_route (loading (Some teacher) (Some "Account deactivated"))
     = Pending
  /\ Js.includes "Session expired" "deactivated" = false
  /\ Js.includes "Session expired" "inactive" = false
  /\ evaluate open_route (loading None (Some "Session expired")) = Pending.
Proof.
  repeat split. discriminate.
Qed.

(** *** Rules 3 and 4: absent principal, inactive account *)

(** C7.  With authentication resolved without error and no principal,
    the decision is a redirect to "/" for every route requirement: the
    component assigns "/" to the location and shows the loading screen
    meanwhile. *)
Theorem absent_principal_redirects (p : Props) (w : World) :
  isLoading (auth w) = false -> Js.truthy (error (auth w)) = false ->
  user (auth w) = None ->
  evaluate p w = RedirectTo "/"
  /\ navigations (snd (ProtectedRoute p w)) = ["/"]
  /\ fst (ProtectedRoute p w) = LoadingScreen.
Proof.
  intros Hld Herr Husr. rewrite evaluate_unfold. cbv zeta.
  rewrite narrow_truthy in Herr.
  destruct w as [[usr ld err ini] path]. simpl in Hld, Herr, Husr. subst.
  run_gate. destruct (Js.narrow err); [discriminate|]. repeat split.
Qed.

Lemma absent_principal_redirects_witness :
  evaluate admin_school_route (resolved None None) = RedirectTo "/"
  /\ navigations (snd (ProtectedRoute admin_school_route (resolved None None))) = ["/"]
  /\ fst (ProtectedRoute admin_school_route (resolved None None)) = LoadingScreen.
Proof.
  apply (absent_principal_redirects admin_school_route (resolved None None));
    reflexivity.
Defined.

(** C6, as amended.  Once authentication has resolved without error
    (not loading, the error absent or empty), a principal whose status
    metadata is "inactive" gets the deactivated-account view under
    every route requirement; and whatever the authentication state, the
    requirement's allowed roles and school flag do not change the
    outcome for such a principal. *)
Theorem inactive_account_view (p : Props) (w : World) (u : User) :
  user (auth w) = Some u -> metadata_status u = Some "inactive" ->
  (isLoading (auth w) = false -> Js.truthy (error (auth w)) = false ->
   evaluate p w = DeactivatedAccountView)
  /\ (forall p', evaluate p' w = evaluate p w).
Proof.
  intros Husr Hst. split.
  - intros Hld Herr. rewrite evaluate_unfold. cbv zeta.
    rewrite narrow_truthy in Herr. rewrite Hld, Husr, Hst.
    destruct (Js.narrow (error (auth w))); [discriminate|]. reflexivity.
  - intros p'. rewrite !evaluate_unfold. cbv zeta. rewrite Husr, Hst.
    reflexivity.
Qed.

Lemma inactive_account_view_witness :
  evaluate admin_school_route (resolved (Some inactive_teacher) None)
  = DeactivatedAccountView.
Proof.
  apply (inactive_account_view admin_school_route
           (resolved (Some inactive_teacher) None) inactive_teacher);
    reflexivity.
Defined.

(** C6, as stated, fails when authentication has not resolved without
    error: an inactive principal gets the authentication-error answer
    when an error is reported, and the gate is pending while loading. *)
Lemma inactive_principal_behind_error_or_loading :
  metadata_status inactive_teacher = Some "inactive"
  /\ evaluate staff_route (resolved (Some inactive_teacher) (Some "Session expired"))
     = Deny (AuthenticationError "Session expired")
  /\ evaluate staff_route (loading (Some inactive_teacher) None) = Pending.
Proof.
  repeat split.
Qed.

(** *** Rules 6 and 7: allowed roles, school assignment *)

(** Past rule 5, the gate's outcome is decided by rules 6 and 7 alone. *)
Lemma evaluate_past_missing_role (p : Props) (w : World) (u : User) (r : string) :
  reaches 5 (auth w) (requirement_of p) = true ->
  user (auth w) = Some u -> role u = Some r ->
  evaluate p w =
  if negb (Nat.eqb (List.length (allowedRoles_of p)) 0)
     && negb (Js.array_includes (allowedRoles_of p) r)
  then Deny (RoleNotPermitted r (allowedRoles_of p))
  else if requireSchoolAssignment_of p
          && negb (r =? "edufam_admin")
          && negb (Js.truthy (school_id u))
  then Deny SchoolAssignmentRequired
  else Allow.
Proof.
  intros Hreach Husr Hrole. rewrite (evaluate_after 5 p w Hreach).
  cbn -[Js.array_includes Js.truthy List.length].
  unfold on_principal, role_text. rewrite Husr, Hrole. reflexivity.
Qed.

(** C3.  For a principal whose role is "edufam_admin", whatever its
    school assignment, the school-assignment rule does not fire: the
    gate never answers "school assignment required", and a principal
    that gets past the allowed-roles check is allowed, also when the
    requirement asks for a school assignment. *)
Theorem admin_exempt_from_school_assignment (p : Props) (w : World) (u : User) :
  user (auth w) = Some u -> role u = Some "edufam_admin" ->
  applies rule_school_assignment (auth w) (requirement_of p) = false
  /\ evaluate p w <> Deny SchoolAssignmentRequired
  /\ (reaches 6 (auth w) (requirement_of p) = true -> evaluate p w = Allow).
Proof.
  intros Husr Hrole.
  assert (Hrule : applies rule_school_assignment (auth w) (requirement_of p) = false).
  { cbn -[Js.truthy]. unfold on_principal. rewrite Husr, Hrole. simpl.
    now rewrite andb_false_r. }
  split; [exact Hrule|]. split.
  - rewrite evaluate_unfold. cbv zeta. rewrite Husr, Hrole.
    destruct (isLoading (auth w)); [discriminate|].
    destruct (Js.narrow (error (auth w))) as [e|].
    + destruct (Js.includes e "deactivated" || Js.includes e "inactive");
        discriminate.
    + destruct (Js.strict_eq (metadata_status u) "inactive"); [discriminate|].
      cbn -[Js.array_includes Js.truthy Nat.ltb List.length].
      destruct (Nat.ltb 0 (List.length (allowedRoles_of p))
                && negb (Js.array_includes (allowedRoles_of p) "edufam_admin"));
        [discriminate|].
      simpl. rewrite andb_false_r. discriminate.
  - intros Hreach. rewrite (evaluate_after 6 p w Hreach).
    change (skipn 6 gate_rules) with [rule_school_assignment].
    cbn [first_match]. now rewrite Hrule.
Qed.

Lemma admin_exempt_from_school_assignment_witness :
  requireSchoolAssignment_of admin_school_route = true
  /\ school_id unassigned_admin = None
  /\ evaluate admin_school_route (resolved (Some unassigned_admin) None) = Allow.
Proof.
  split; [reflexivity|]. split; [reflexivity|].
  apply (admin_exempt_from_school_assignment admin_school_route
           (resolved (Some unassigned_admin) None) unassigned_admin);
    reflexivity.
Defined.

(** C4.  When the requirement's allowed-roles list is empty, the
    allowed-roles rule does not fire: no principal is answered "role not
    permitted", and every principal that bears a role and gets that far
    is judged by the school-assignment rule alone. *)
Theorem empty_allowed_roles_admit_any_role (p : Props) (w : World) :
  allowedRoles_of p = [] ->
  applies rule_allowed_roles (auth w) (requirement_of p) = false
  /\ (forall actual required, evaluate p w <> Deny (RoleNotPermitted actual required))
  /\ (reaches 5 (auth w) (requirement_of p) = true ->
      evaluate p w =
      if applies rule_school_assignment (auth w) (requirement_of p)
      then Deny SchoolAssignmentRequired else Allow).
Proof.
  intros Hempty.
  assert (Hrule : applies rule_allowed_roles (auth w) (requirement_of p) = false).
  { cbn. unfold on_principal. rewrite Hempty. now destruct (user (auth w)). }
  split; [exact Hrule|]. split.
  - intros actual required. rewrite evaluate_unfold. cbv zeta. rewrite Hempty.
    destruct (isLoading (auth w)); [discriminate|].
    destruct (Js.narrow (error (auth w))) as [e|].
    + destruct (Js.includes e "deactivated" || Js.includes e "inactive");
        discriminate.
    + destruct (user (auth w)) as [u|]; [|discriminate].
      destruct (Js.strict_eq (metadata_status u) "inactive"); [discriminate|].
      destruct (Js.narrow (role u)) as [r|]; [|discriminate].
      cbn -[Js.array_includes Js.truthy].
      destruct (requireSchoolAssignment_of p && negb (Js.truthy (school_id u))
                && negb (Js.array_includes ["edufam_admin"] r)); discriminate.
  - intros Hreach. rewrite (evaluate_after 5 p w Hreach).
    change (skipn 5 gate_rules) with [rule_allowed_roles; rule_school_assignment].
    cbn [first_match]. rewrite Hrule. reflexivity.
Qed.

Lemma empty_allowed_roles_admit_any_role_witness :
  evaluate open_route (resolved (Some capital_teacher) None) = Allow.
Proof.
  apply (empty_allowed_roles_admit_any_role open_route
           (resolved (Some capital_teacher) None)); reflexivity.
Defined.

(** C5, as amended.  Role matching is exact and case-sensitive: a role
    string outside the fixed role set (a case variant of a valid role,
    say) matches no list drawn from that set, so against a non-empty
    such list the allowed-roles rule's condition holds; and a principal
    that gets as far as that rule (authentication resolved without
    error, account not inactive, role not empty) is answered "role not
    permitted". *)
Theorem unknown_role_never_permitted (p : Props) (w : World) (u : User) (r : string) :
  user (auth w) = Some u -> role u = Some r ->
  ~ In r role_tags ->
  allowedRoles_of p <> [] ->
  (forall x, In x (allowedRoles_of p) -> In x role_tags) ->
  Js.array_includes (allowedRoles_of p) r = false
  /\ applies rule_allowed_roles (auth w) (requirement_of p) = true
  /\ (reaches 5 (auth w) (requirement_of p) = true ->
      evaluate p w = Deny (RoleNotPermitted r (allowedRoles_of p)))
  /\ (isLoading (auth w) = false -> Js.truthy (error (auth w)) = false ->
      metadata_status u <> Some "inactive" -> r <> "" ->
      evaluate p w = Deny (RoleNotPermitted r (allowedRoles_of p))).
Proof.
  intros Husr Hrole Hout Hne Hsub.
  assert (Hinc : Js.array_includes (allowedRoles_of p) r = false).
  { apply array_includes_false_iff. intros Hin. apply Hout. now apply Hsub. }
  split; [exact Hinc|]. split; [|split].
  - cbn -[Js.array_includes]. unfold on_principal. rewrite Husr, Hrole.
    cbn -[Js.array_includes]. rewrite Hinc.
    destruct (allowedRoles_of p); [contradiction|reflexivity].
  - intros Hreach.
    rewrite (evaluate_past_missing_role p w u r Hreach Husr Hrole), Hinc.
    destruct (allowedRoles_of p); [contradiction|reflexivity].
  - intros Hld Herr Hst Hrne. rewrite evaluate_unfold. cbv zeta.
    rewrite narrow_truthy in Herr. rewrite Hld, Husr.
    destruct (Js.narrow (error (auth w))); [discriminate|].
    assert (Hactive : Js.strict_eq (metadata_status u) "inactive" = false).
    { destruct (metadata_status u) as [st|]; [|reflexivity]. simpl.
      destruct (String.eqb_spec st "inactive") as [->|_];
        [now destruct Hst | reflexivity]. }
    assert (Hn : Js.narrow (role u) = Some r) by (apply narrow_some; auto).
    rewrite Hactive, Hn, Hinc.
    destruct (allowedRoles_of p); [contradiction|reflexivity].
Qed.

Lemma unknown_role_never_permitted_witness :
  Js.array_includes ["teacher"; "principal"] "Teacher" = false
  /\ evaluate staff_route (resolved (Some capital_teacher) None)
     = Deny (RoleNotPermitted "Teacher" ["teacher"; "principal"]).
Proof.
  assert (H : ~ In "Teacher" role_tags).
  { simpl. intros H. repeat (destruct H as [H|H]; [discriminate|]). exact H. }
  assert (Hsub : forall x, In x ["teacher"; "principal"] -> In x role_tags).
  { simpl. intros x [<-|[<-|[]]]; auto. }
  split.
  - apply (proj1 (unknown_role_never_permitted staff_route
                    (resolved (Some capital_teacher) None) capital_teacher
                    "Teacher" eq_refl eq_refl H
                    ltac:(discriminate) Hsub)).
  - apply (proj2 (proj2 (proj2
             (unknown_role_never_permitted staff_route
                (resolved (Some capital_teacher) None) capital_teacher
                "Teacher" eq_refl eq_refl H
                ltac:(discriminate) Hsub)))).
    + reflexivity.
    + reflexivity.
    + discriminate.
    + discriminate.
Defined.

(** C5, as stated, fails for principals that never get as far as the
    allowed-roles rule: with a role outside the role set and a
    non-empty list drawn from it, an empty role string is answered "role
    not configured", an inactive account gets the deactivated-account
    view, a reported error is answered "authentication error", and the
    gate is pending while loading. *)
Lemma unknown_role_stopped_by_earlier_rules :
  ~ In "" role_tags /\ ~ In "Teacher" role_tags
  /\ allowedRoles_of staff_route = ["teacher"; "principal"]
  /\ evaluate staff_route (resolved (Some empty_role) None)
     = Deny RoleNotConfigured
  /\ evaluate staff_route
       (resolved (Some (principal (Some "Teacher") (Some "school-1")
                                  (Some "inactive"))) None)
     = DeactivatedAccountView
  /\ evaluate staff_route (resolved (Some capital_teacher) (Some "Session expired"))
     = Deny (AuthenticationError "Session expired")
  /\ evaluate staff_route (loading (Some capital_teacher) None) = Pending.
Proof.
  repeat split;
    simpl; intros H; repeat (destruct H as [H|H]; [discriminate|]); exact H.
Qed.

(** *** What the decision depends on *)

(** The component writes to the location exactly when it redirects. *)
Lemma gate_navigates_only_on_redirect (p : Props) (w : World) :
  navigations (snd (ProtectedRoute p w)) =
  match evaluate p w with
  | RedirectTo target => [target]
  | _ => []
  end.
Proof.
  destruct w as [[usr ld err ini] path]. run_gate.
  destruct ld; [reflexivity|].
  destruct (Js.narrow err) as [e|].
  - destruct (Js.includes e "deactivated" || Js.includes e "inactive");
      reflexivity.
  - destruct usr as [u|]; [|reflexivity].
    destruct (Js.strict_eq (metadata_status u) "inactive"); [reflexivity|].
    destruct (Js.narrow (role u)) as [r|]; [|reflexivity].
    destruct (Nat.ltb 0 (List.length (allowedRoles_of p))
              && negb (Js.array_includes (allowedRoles_of p) r));
      [reflexivity|].
    destruct (requireSchoolAssignment_of p && negb (Js.truthy (school_id u))
              && negb (Js.array_includes ["edufam_admin"] r)); reflexivity.
Qed.

(** C8, as amended.  The decision is a function of the authentication
    snapshot (principal, loading flag, error) and the requirement
    (allowed roles, school flag): two evaluations that agree on these
    give the same decision, whatever the location, the initialisation
    flag, the children or the fallback message. *)
Theorem decision_determined_by_snapshots (p1 p2 : Props) (w1 w2 : World) :
  user (auth w1) = user (auth w2) ->
  isLoading (auth w1) = isLoading (auth w2) ->
  error (auth w1) = error (auth w2) ->
  requirement_of p1 = requirement_of p2 ->
  evaluate p1 w1 = evaluate p2 w2.
Proof.
  intros Husr Hld Herr Hreq. rewrite !evaluate_unfold. cbv zeta.
  injection Hreq as Hallowed Hschool.
  now rewrite Husr, Hld, Herr, Hallowed, Hschool.
Qed.

Lemma decision_determined_by_snapshots_witness :
  evaluate staff_route (resolved (Some teacher) None)
  = evaluate
      (mkProps "another page" (Some ["teacher"; "principal"]) (Some false)
               (Some "Staff only."))
      (mkWorld (mkAuthState (Some teacher) false None false) "/grades").
Proof.
  apply (decision_determined_by_snapshots staff_route
           (mkProps "another page" (Some ["teacher"; "principal"]) (Some false)
                    (Some "Staff only."))
           (resolved (Some teacher) None)
           (mkWorld (mkAuthState (Some teacher) false None false) "/grades"));
    reflexivity.
Defined.

(** C8, as stated, fails: the principal and the requirement alone do not
    fix the decision, the reported error and the loading flag do too. *)
Lemma same_principal_and_requirement_different_decisions :
  user (auth (resolved (Some teacher) None))
  = user (auth (resolved (Some teacher) (Some "Session expired")))
  /\ user (auth (resolved (Some teacher) None))
     = user (auth (loading (Some teacher) None))
  /\ evaluate staff_route (resolved (Some teacher) None) = Allow
  /\ evaluate staff_route (resolved (Some teacher) (Some "Session expired"))
     = Deny (AuthenticationError "Session expired")
  /\ evaluate staff_route (loading (Some teacher) None) = Pending.
Proof.
  repeat split.
Qed.

(** ** The application shell *)

Lemma reachable_keeps_initial_cells `{Shell.RouteGuard} (s : Shell.State) :
  Shell.reachable s ->
  Shell.showLogin s = false
  /\ Shell.dbStatus s = Some (Shell.mkDbStatus true None)
  /\ Shell.isCheckingDb s = false.
Proof.
  induction 1 as [|s w Hs IH].
  - repeat split.
  - destruct IH as (H1 & H2 & H3).
    unfold Shell.checkRouteAccess, bind, ret, useAuth, Shell.read_pathname,
      set_location_href.
    destruct (user (auth w)) as [u|]; cbn -[Js.narrow String.eqb].
    + destruct (Shell.hasAccess _); cbn -[Js.narrow String.eqb]; auto.
      destruct (Js.narrow _) as [t|]; cbn -[String.eqb]; auto.
      destruct (t =? "/unauthorized"); cbn; auto.
    + auto.
Qed.

(** C9.  In the application shell, with authentication resolved without
    error and no principal, the component shows the loading screen and
    nothing navigates: neither the render nor the route-access effect
    writes to the location, whereas the gate on the same input assigns
    "/". *)
Theorem shell_absent_principal_stays_loading `{Shell.RouteGuard}
        (children : option ReactNode) (s : Shell.State) (w : World) (p : Props) :
  Shell.reachable s ->
  isInitialized (auth w) = true -> isLoading (auth w) = false ->
  Js.truthy (error (auth w)) = false -> user (auth w) = None ->
  fst (Shell.AppContent children s w) = Shell.LoadingScreen
  /\ navigations (snd (Shell.AppContent children s w)) = []
  /\ navigations (snd (Shell.checkRouteAccess s w)) = []
  /\ Shell.accessCheck (fst (Shell.checkRouteAccess s w)) = None
  /\ navigations (snd (ProtectedRoute p w)) = ["/"].
Proof.
  intros Hs Hini Hld Herr Husr.
  destruct (reachable_keeps_initial_cells s Hs) as (_ & Hdb & Hchk).
  rewrite narrow_truthy in Herr.
  destruct w as [[usr ld err ini] path]. simpl in Hini, Hld, Herr, Husr. subst.
  unfold Shell.AppContent, Shell.checkRouteAccess, Shell.useAuth_raw, bind, ret,
    useAuth, console_log.
  cbn -[Js.narrow]. rewrite Hdb, Hchk. cbn -[Js.narrow].
  destruct (Js.narrow err) eqn:He; [discriminate|]. cbn.
  repeat split.
Qed.

Lemma shell_absent_principal_stays_loading_witness :
  fst (Shell.AppContent (Some "page") Shell.initial_state (resolved None None))
  = Shell.LoadingScreen
  /\ navigations
       (snd (Shell.AppContent (Some "page") Shell.initial_state (resolved None None)))
     = []
  /\ navigations
       (snd (@Shell.checkRouteAccess strict_guard Shell.initial_state
               (resolved None None))) = []
  /\ Shell.accessCheck
       (fst (@Shell.checkRouteAccess strict_guard Shell.initial_state
               (resolved None None))) = None
  /\ navigations (snd (ProtectedRoute open_route (resolved None None))) = ["/"].
Proof.
  apply (@shell_absent_principal_stays_loading strict_guard (Some "page")
           Shell.initial_state (resolved None None) open_route).
  - apply Shell.reach_initial.
  - reflexivity.
  - reflexivity.
  - reflexivity.
  - reflexivity.
Defined.

(** The shell classifies an authentication error the way the gate does. *)
Lemma shell_auth_error_classification `{Shell.RouteGuard}
      (children : option ReactNode) (s : Shell.State) (w : World) (e : string) :
  Shell.reachable s ->
  isInitialized (auth w) = true -> isLoading (auth w) = false ->
  error (auth w) = Some e -> e <> "" ->
  fst (Shell.AppContent children s w) =
  if Js.includes e "deactivated" || Js.includes e "inactive"
  then Shell.DeactivatedAccountMessage
  else Shell.AuthenticationErrorState e.
Proof.
  intros Hs Hini Hld Herr Hne.
  destruct (reachable_keeps_initial_cells s Hs) as (_ & Hdb & Hchk).
  assert (Hn : Js.narrow (error (auth w)) = Some e) by (apply narrow_some; auto).
  destruct w as [[usr ld err ini] path]. simpl in Hini, Hld, Herr, Hn. subst.
  unfold Shell.AppContent, Shell.useAuth_raw, bind, ret, console_log.
  cbn -[Js.narrow Js.includes]. rewrite Hdb, Hchk, Hn.
  cbn -[Js.narrow Js.includes].
  destruct (Js.includes e "deactivated" || Js.includes e "inactive");
    reflexivity.
Qed.

(** The shell shows the deactivated-account view to an inactive
    principal, whatever the access check says. *)
Lemma shell_inactive_account_view `{Shell.RouteGuard}
      (children : option ReactNode) (s : Shell.State) (w : World) (u : User) :
  Shell.reachable s ->
  isInitialized (auth w) = true -> isLoading (auth w) = false ->
  Js.truthy (error (auth w)) = false ->
  user (auth w) = Some u -> metadata_status u = Some "inactive" ->
  fst (Shell.AppContent children s w) = Shell.DeactivatedAccountMessage.
Proof.
  intros Hs Hini Hld Herr Husr Hst.
  destruct (reachable_keeps_initial_cells s Hs) as (_ & Hdb & Hchk).
  rewrite narrow_truthy in Herr.
  destruct w as [[usr ld err ini] path]. simpl in Hini, Hld, Herr, Husr. subst.
  unfold Shell.AppContent, Shell.useAuth_raw, bind, ret, console_log.
  cbn -[Js.narrow]. rewrite Hdb, Hchk. cbn -[Js.narrow].
  destruct (Js.narrow err); [discriminate|].
  cbn -[Js.narrow]. rewrite Hst. reflexivity.
Qed.

(** ** The admin schools query *)

Import Hooks.

(** The filter callback never throws: the property read is guarded by
    the truthiness of the element. *)
Lemma keep_school_total (v : Value) : keep_school v = ok (keeps v).
Proof.
  destruct v as [| |b|q|s|items|fields]; try reflexivity.
  - destruct b; reflexivity.
  - unfold keep_school. simpl. destruct (Qeq_bool q 0); reflexivity.
  - unfold keep_school. simpl. destruct (s =? ""); reflexivity.
  - unfold keep_school. simpl.
    destruct (truthy (lookup_field "id" fields)); reflexivity.
Qed.

Lemma filter_array_keep_school (xs : list Value) :
  filter_array keep_school xs = ok (filter keeps xs).
Proof.
  induction xs as [|x xs IH]; [reflexivity|].
  simpl. rewrite keep_school_total, IH. simpl.
  destruct (keeps x); reflexivity.
Qed.

Lemma keeps_has_truthy_id (v : Value) : keeps v = true <-> has_truthy_id v.
Proof.
  unfold has_truthy_id. split.
  - destruct v as [| |b|q|s|items|fields]; try discriminate.
    intros Hk. repeat split; try discriminate.
    exists (lookup_field "id" fields). split; [reflexivity | exact Hk].
  - intros (Hnull & Hundef & i & Hm & Hi).
    destruct v as [| |b|q|s|items|fields]; simpl in Hm;
      try discriminate; try (injection Hm as <-; discriminate).
    injection Hm as <-. exact Hi.
Qed.

(** A run of the callback succeeds whenever the parameters validate and
    the remote procedure reports no error, and yields the kept rows. *)
Lemma fetchSchools_succeeds
      (validateQueryParams : option string -> string -> Result unit)
      (rpc : nat -> RpcResponse) (u : User) (r : string) (k : nat) :
  validateQueryParams (id u) r = ok tt ->
  rpc_error (rpc k) = None ->
  fetchSchools validateQueryParams rpc u r k
  = ok (filter keeps (as_array (data (rpc k)))).
Proof.
  intros Hv He. unfold fetchSchools. rewrite Hv, He. simpl.
  now rewrite filter_array_keep_school.
Qed.

Lemma fetchSchools_ok_inv
      (validateQueryParams : option string -> string -> Result unit)
      (rpc : nat -> RpcResponse) (u : User) (r : string) (k : nat)
      (schools : list Value) :
  fetchSchools validateQueryParams rpc u r k = ok schools ->
  rpc_error (rpc k) = None
  /\ schools = filter keeps (as_array (data (rpc k))).
Proof.
  unfold fetchSchools.
  destruct (validateQueryParams (id u) r) as [e|[]]; [discriminate|].
  simpl. destruct (rpc_error (rpc k)) as [m|]; [discriminate|].
  rewrite filter_array_keep_school. simpl. intros H. injection H as <-.
  split; reflexivity.
Qed.

(** C10.  Whatever the backend answers, a successful fetch returns an
    array whose every element is neither null nor undefined and has a
    truthy [id]: it is the answer of one run of the callback, with the
    rows lacking an [id] dropped, and the empty array when the answer is
    not an array.  The wrapper is only assumed to hand back what some run
    of its callback returned. *)
Theorem fetched_schools_have_truthy_id
        (validateQueryParams : option string -> string -> Result unit)
        (execute : (nat -> Result (list Value)) -> Result (list Value))
        (rpc : nat -> RpcResponse) (usr : option User) (schools : list Value) :
  (forall callback v, execute callback = ok v -> exists k, callback k = ok v) ->
  queryFn validateQueryParams execute rpc usr = ok schools ->
  Forall has_truthy_id schools
  /\ exists k,
       rpc_error (rpc k) = None
       /\ (forall v, In v schools <->
                     In v (as_array (data (rpc k))) /\ has_truthy_id v)
       /\ ((forall items, data (rpc k) <> JArray items) -> schools = []).
Proof.
  intros Hexec Hq. unfold queryFn in Hq.
  destruct usr as [u|]; [|discriminate].
  destruct (Js.narrow (role u)) as [r|]; [|discriminate].
  destruct (negb (r =? "edufam_admin")); [discriminate|].
  destruct (execute (fetchSchools validateQueryParams rpc u r)) as [e|v] eqn:He;
    [discriminate|].
  simpl in Hq. injection Hq as <-.
  destruct (Hexec _ _ He) as [k Hk].
  apply fetchSchools_ok_inv in Hk. destruct Hk as [Herr ->].
  split.
  - apply Forall_forall. intros x Hx. apply filter_In in Hx.
    now apply keeps_has_truthy_id.
  - exists k. split; [exact Herr|]. split.
    + intros x. rewrite filter_In, keeps_has_truthy_id. reflexivity.
    + intros Hna. destruct (data (rpc k)); try reflexivity.
      now destruct (Hna items).
Qed.

Lemma fetched_schools_have_truthy_id_witness :
  Forall has_truthy_id kept_rows
  /\ exists k,
       rpc_error (flaky_rpc k) = None
       /\ (forall v, In v kept_rows <->
                     In v (as_array (data (flaky_rpc k))) /\ has_truthy_id v)
       /\ ((forall items, data (flaky_rpc k) <> JArray items) -> kept_rows = []).
Proof.
  apply (fetched_schools_have_truthy_id
           (fun _ _ => ok tt) retry_once flaky_rpc (Some unassigned_admin)
           kept_rows).
  - intros callback v Hv. unfold retry_once in Hv.
    destruct (callback 0%nat) as [e|v0] eqn:H0.
    + exists 1%nat. exact Hv.
    + exists 0%nat. rewrite H0. exact Hv.
  - reflexivity.
Defined.

(** A non-array answer gives the empty array; a row without a truthy
    [id] is dropped wherever it stands. *)
Example non_array_answer :
  queryFn (fun _ _ => ok tt) (fun callback => callback 0%nat)
          (fun _ => mkRpcResponse (JObject [("id", JNumber 7)]) None)
          (Some unassigned_admin) = ok [].
Proof. reflexivity. Qed.

Example null_answer :
  queryFn (fun _ _ => ok tt) (fun callback => callback 0%nat)
          (fun _ => mkRpcResponse JNull None) (Some unassigned_admin) = ok [].
Proof. reflexivity. Qed.

Example non_admin_is_refused :
  queryFn (fun _ _ => ok tt) (fun callback => callback 0%nat)
          (fun _ => mkRpcResponse (JArray rows) None) (Some teacher)
  = throw (Error "Access denied. Only EduFam/Elimisha administrators can access school data.").
Proof. reflexivity. Qed.

(** * Further properties of the components *)

(** ** The gate: when it lets through, when it navigates *)

Lemma strict_eq_true_iff (o : option string) (lit : string) :
  Js.strict_eq o lit = true <-> o = Some lit.
Proof.
  destruct o as [s|]; simpl.
  - rewrite String.eqb_eq. split; [intros ->; reflexivity | intros H; now injection H].
  - split; discriminate.
Qed.

Lemma strict_eq_false_iff (o : option string) (lit : string) :
  Js.strict_eq o lit = false <-> o <> Some lit.
Proof.
  rewrite <- strict_eq_true_iff. destruct (Js.strict_eq o lit); split; congruence.
Qed.

(** The conditions under which the gate lets a request through. *)
Definition admitted (p : Props) (w : World) : Prop :=
  isLoading (auth w) = false /\ Js.truthy (error (auth w)) = false /\
  exists u r,
    user (auth w) = Some u /\ role u = Some r /\ r <> "" /\
    metadata_status u <> Some "inactive" /\
    (allowedRoles_of p = [] \/ In r (allowedRoles_of p)) /\
    (requireSchoolAssignment_of p = true ->
     r = "edufam_admin" \/ Js.truthy (school_id u) = true).

Lemma evaluate_allow_iff (p : Props) (w : World) :
  evaluate p w = Allow <-> admitted p w.
Proof.
  unfold admitted. rewrite evaluate_unfold. cbv zeta.
  rewrite (narrow_truthy (error (auth w))).
  destruct (isLoading (auth w)).
  { split; [discriminate | intros [H _]; discriminate]. }
  destruct (Js.narrow (error (auth w))) as [e|].
  { split; [|intros (_ & H & _); discriminate].
    destruct (Js.includes e "deactivated" || Js.includes e "inactive");
      discriminate. }
  destruct (user (auth w)) as [u|].
  2:{ split; [discriminate | intros (_ & _ & u & r & H & _); discriminate]. }
  destruct (Js.strict_eq (metadata_status u) "inactive") eqn:Hst.
  { apply strict_eq_true_iff in Hst. split; [discriminate|].
    intros (_ & _ & u' & r & Hu & _ & _ & Hne & _). injection Hu as <-.
    contradiction. }
  apply strict_eq_false_iff in Hst.
  destruct (Js.narrow (role u)) as [r|] eqn:Hr.
  2:{ split; [discriminate|].
      intros (_ & _ & u' & r & Hu & Hrole & Hne & _). injection Hu as <-.
      assert (Js.narrow (role u) = Some r) by (apply narrow_some; auto).
      congruence. }
  apply narrow_some in Hr. destruct Hr as [Hr Hne].
  assert (Hlen : Nat.ltb 0 (List.length (allowedRoles_of p)) = false
                 <-> allowedRoles_of p = []).
  { destruct (allowedRoles_of p); cbn; split; intros H; (reflexivity || discriminate). }
  assert (Hadm : Js.array_includes ["edufam_admin"] r = true <-> r = "edufam_admin").
  { unfold Js.array_includes. simpl. rewrite orb_false_r. apply String.eqb_eq. }
  split.
  - intros H. repeat split.
    exists u, r. repeat split; try assumption.
    + destruct (Nat.ltb 0 (List.length (allowedRoles_of p))) eqn:Hl.
      * destruct (Js.array_includes (allowedRoles_of p) r) eqn:Hin;
          [|discriminate].
        right. now apply array_includes_true_iff.
      * left. now apply Hlen.
    + intros Hreq.
      destruct (Nat.ltb 0 (List.length (allowedRoles_of p))
                && negb (Js.array_includes (allowedRoles_of p) r));
        [discriminate|].
      rewrite Hreq in H.
      destruct (Js.truthy (school_id u)); [now right|].
      destruct (Js.array_includes ["edufam_admin"] r) eqn:Ha; [|discriminate].
      left. now apply Hadm.
  - intros (_ & _ & u' & r' & Hu & Hr' & _ & _ & Hallowed & Hschool).
    injection Hu as <-. rewrite Hr in Hr'. injection Hr' as <-.
    assert (H6 : Nat.ltb 0 (List.length (allowedRoles_of p))
                 && negb (Js.array_includes (allowedRoles_of p) r) = false).
    { destruct Hallowed as [He|Hin].
      - apply Hlen in He. now rewrite He.
      - apply array_includes_true_iff in Hin. rewrite Hin.
        now rewrite andb_false_r. }
    rewrite H6.
    destruct (requireSchoolAssignment_of p); [|reflexivity].
    destruct (Hschool eq_refl) as [Hadmin|Hsch].
    + apply Hadm in Hadmin. rewrite Hadmin. now rewrite andb_false_r.
    + rewrite Hsch. reflexivity.
Qed.



(** X2.  The gate writes to the location at most once per render, only
    ever the target "/", and exactly when authentication has resolved
    without error and no principal is present. *)
Theorem gate_navigation_iff (p : Props) (w : World) :
  (navigations (snd (ProtectedRoute p w)) = ["/"]
   \/ navigations (snd (ProtectedRoute p w)) = [])
  /\ (navigations (snd (ProtectedRoute p w)) = ["/"] <->
      isLoading (auth w) = false /\ Js.truthy (error (auth w)) = false
      /\ user (auth w) = None).
Proof.
  rewrite (narrow_truthy (error (auth w))).
  destruct w as [[usr ld err ini] path]. run_gate.
  destruct ld.
  { split; [now right|]. split; [discriminate | intros [H _]; discriminate]. }
  destruct (Js.narrow err) as [e|].
  { destruct (Js.includes e "deactivated" || Js.includes e "inactive");
      (split; [now right|]; split; [discriminate | intros (_ & H & _); discriminate]). }
  destruct usr as [u|].
  2:{ split; [now left|]. split; [intros _; repeat split | reflexivity]. }
  destruct (Js.strict_eq (metadata_status u) "inactive").
  { split; [now right|]. split; [discriminate | intros (_ & _ & H); discriminate]. }
  destruct (Js.narrow (role u)) as [r|].
  2:{ split; [now right|]. split; [discriminate | intros (_ & _ & H); discriminate]. }
  destruct (Nat.ltb 0 (List.length (allowedRoles_of p))
            && negb (Js.array_includes (allowedRoles_of p) r)).
  { split; [now right|]. split; [discriminate | intros (_ & _ & H); discriminate]. }
  destruct (requireSchoolAssignment_of p && negb (Js.truthy (school_id u))
            && negb (Js.array_includes ["edufam_admin"] r));
    (split; [now right|]; split; [discriminate | intros (_ & _ & H); discriminate]).
Qed.



(** X4.  Widening a non-empty allowed-roles list, or dropping the
    school-assignment requirement, never takes access away: whoever is
    let through by a requirement is let through by every requirement
    that lists at least the same roles and asks for a school only if the
    first one did. *)
Theorem widening_keeps_access (p p' : Props) (w : World) :
  allowedRoles_of p <> [] ->
  (forall x, In x (allowedRoles_of p) -> In x (allowedRoles_of p')) ->
  (requireSchoolAssignment_of p' = true -> requireSchoolAssignment_of p = true) ->
  evaluate p w = Allow -> evaluate p' w = Allow.
Proof.
  intros Hne Hsub Hschool H.
  apply evaluate_allow_iff in H. apply evaluate_allow_iff.
  destruct H as (Hld & Herr & u & r & Hu & Hr & Hrne & Hst & Hallowed & Hsch).
  repeat split; try assumption.
  exists u, r. repeat split; try assumption.
  - right. destruct Hallowed as [He|Hin]; [contradiction | now apply Hsub].
  - intros Hreq. apply Hsch. now apply Hschool.
Qed.

Lemma widening_keeps_access_witness :
  evaluate (mkProps "page" (Some ["principal"; "teacher"; "parent"]) None None)
           (resolved (Some teacher) None) = Allow.
Proof.
  apply (widening_keeps_access staff_route
           (mkProps "page" (Some ["principal"; "teacher"; "parent"]) None None)
           (resolved (Some teacher) None)).
  - discriminate.
  - simpl. intros x [<-|[<-|[]]]; auto.
  - discriminate.
  - reflexivity.
Defined.

(** X5.  A "role not permitted" answer is always justified and reports
    the facts: the detail carries the principal's own non-empty role and
    the route's own list, that list is not empty and does not contain the
    role, and the principal is present and not inactive. *)
Theorem role_denial_is_justified (p : Props) (w : World)
        (actual : string) (required : list UserRole) :
  evaluate p w = Deny (RoleNotPermitted actual required) ->
  required = allowedRoles_of p /\ required <> [] /\ ~ In actual required
  /\ actual <> ""
  /\ exists u, user (auth w) = Some u /\ role u = Some actual
               /\ metadata_status u <> Some "inactive".
Proof.
  rewrite evaluate_unfold. cbv zeta.
  destruct (isLoading (auth w)); [discriminate|].
  destruct (Js.narrow (error (auth w))) as [e|].
  { destruct (Js.includes e "deactivated" || Js.includes e "inactive");
      discriminate. }
  destruct (user (auth w)) as [u|]; [|discriminate].
  destruct (Js.strict_eq (metadata_status u) "inactive") eqn:Hst; [discriminate|].
  apply strict_eq_false_iff in Hst.
  destruct (Js.narrow (role u)) as [r|] eqn:Hr; [|discriminate].
  apply narrow_some in Hr. destruct Hr as [Hr Hne].
  destruct (Nat.ltb 0 (List.length (allowedRoles_of p))) eqn:Hlen.
  2:{ cbn [andb negb]. destruct (requireSchoolAssignment_of p && negb (Js.truthy (school_id u))
                       && negb (Js.array_includes ["edufam_admin"] r));
        discriminate. }
  destruct (Js.array_includes (allowedRoles_of p) r) eqn:Hin.
  { cbn [andb negb]. destruct (requireSchoolAssignment_of p && negb (Js.truthy (school_id u))
                     && negb (Js.array_includes ["edufam_admin"] r));
      discriminate. }
  cbn [andb negb]. intros H. injection H as <- <-.
  apply array_includes_false_iff in Hin.
  repeat split; try assumption.
  - intros He. rewrite He in Hlen. discriminate.
  - exists u. repeat split; assumption.
Qed.

Lemma role_denial_is_justified_witness :
  ["teacher"; "principal"] = allowedRoles_of staff_route
  /\ ["teacher"; "principal"] <> [] /\ ~ In "parent" ["teacher"; "principal"]
  /\ "parent" <> ""
  /\ exists u, user (auth (resolved (Some parent) None)) = Some u
               /\ role u = Some "parent"
               /\ metadata_status u <> Some "inactive".
Proof.
  apply (role_denial_is_justified staff_route (resolved (Some parent) None)).
  reflexivity.
Defined.

(** X6.  A "school assignment required" answer is always justified: the
    route asks for a school, the principal has none, its role is not
    "edufam_admin", and it passed the allowed-roles check. *)
Theorem school_denial_is_justified (p : Props) (w : World) :
  evaluate p w = Deny SchoolAssignmentRequired ->
  requireSchoolAssignment_of p = true
  /\ exists u r, user (auth w) = Some u /\ role u = Some r
                 /\ r <> "" /\ r <> "edufam_admin"
                 /\ Js.truthy (school_id u) = false
                 /\ (allowedRoles_of p = [] \/ In r (allowedRoles_of p)).
Proof.
  rewrite evaluate_unfold. cbv zeta.
  destruct (isLoading (auth w)); [discriminate|].
  destruct (Js.narrow (error (auth w))) as [e|].
  { destruct (Js.includes e "deactivated" || Js.includes e "inactive");
      discriminate. }
  destruct (user (auth w)) as [u|]; [|discriminate].
  destruct (Js.strict_eq (metadata_status u) "inactive"); [discriminate|].
  destruct (Js.narrow (role u)) as [r|] eqn:Hr; [|discriminate].
  apply narrow_some in Hr. destruct Hr as [Hr Hne].
  destruct (Nat.ltb 0 (List.length (allowedRoles_of p))) eqn:Hlen;
    destruct (Js.array_includes (allowedRoles_of p) r) eqn:Hin;
    cbn [andb negb]; try discriminate.
  all: unfold Js.array_includes at 1; simpl existsb; rewrite orb_false_r.
  all: destruct (requireSchoolAssignment_of p); [|discriminate].
  all: destruct (Js.truthy (school_id u)) eqn:Hsch; [discriminate|].
  all: destruct (String.eqb_spec r "edufam_admin") as [Heq|Hneq];
    [discriminate|].
  all: intros _; split; [reflexivity|]; exists u, r; repeat split;
    try assumption.
  - right. now apply array_includes_true_iff.
  - left. destruct (allowedRoles_of p); [reflexivity | discriminate].
  - left. destruct (allowedRoles_of p); [reflexivity | discriminate].
Qed.

Lemma school_denial_is_justified_witness :
  requireSchoolAssignment_of school_route = true
  /\ exists u r, user (auth (resolved (Some unassigned_principal) None)) = Some u
                 /\ role u = Some r
                 /\ r <> "" /\ r <> "edufam_admin"
                 /\ Js.truthy (school_id u) = false
                 /\ (allowedRoles_of school_route = []
                     \/ In r (allowedRoles_of school_route)).
Proof.
  apply (school_denial_is_justified school_route
           (resolved (Some unassigned_principal) None)).
  reflexivity.
Defined.

(** ** The shell: what it shows and when it navigates *)

Ltac run_shell :=
  unfold Shell.AppContent, Shell.checkRouteAccess, Shell.useAuth_raw,
    Shell.read_pathname, bind, ret, useAuth, console_log, set_location_href;
  cbn -[Js.includes Js.truthy Js.narrow Js.strict_eq String.eqb].

(** The view of the shell in a reachable state, with the effect
    plumbing run and the two cells that never change read off. *)
Lemma shell_view_unfold `{Shell.RouteGuard}
      (children : option ReactNode) (s : Shell.State) (w : World) :
  Shell.reachable s ->
  fst (Shell.AppContent children s w) =
  let a := auth w in
  if negb (isInitialized a) || isLoading a then Shell.LoadingScreen
  else match Js.narrow (error a) with
       | Some e =>
           if Js.includes e "deactivated" || Js.includes e "inactive"
           then Shell.DeactivatedAccountMessage
           else Shell.AuthenticationErrorState e
       | None =>
           match user a with
           | None => Shell.LoadingScreen
           | Some u =>
               if Js.strict_eq (metadata_status u) "inactive"
               then Shell.DeactivatedAccountMessage
               else if negb (Js.truthy (role u))
               then Shell.AccountConfigurationErrorState
               else match Shell.accessCheck s with
                    | Some c =>
                        if Shell.hasAccess c then Shell.Layout (Js.narrow children)
                        else if Js.strict_eq (Shell.redirectTo c) "/unauthorized"
                        then Shell.UnauthorizedPage
                        else Shell.LoadingScreen
                    | None => Shell.Layout (Js.narrow children)
                    end
           end
       end.
Proof.
  intros Hs. destruct (reachable_keeps_initial_cells s Hs) as (_ & Hdb & Hchk).
  destruct w as [[usr ld err ini] path]. run_shell. rewrite Hdb, Hchk.
  cbn -[Js.includes Js.truthy Js.narrow Js.strict_eq String.eqb].
  rewrite orb_false_r.
  destruct (negb ini || ld); [reflexivity|].
  destruct (Js.narrow err) as [e|].
  { destruct (Js.includes e "deactivated" || Js.includes e "inactive");
      reflexivity. }
  destruct usr as [u|]; [|reflexivity].
  destruct (Js.strict_eq (metadata_status u) "inactive"); [reflexivity|].
  destruct (negb (Js.truthy (role u))); [reflexivity|].
  destruct (Shell.accessCheck s) as [c|]; [|reflexivity].
  destruct (Shell.hasAccess c); [reflexivity|].
  cbn -[Js.strict_eq].
  destruct (Js.strict_eq (Shell.redirectTo c) "/unauthorized"); reflexivity.
Qed.

(** X7.  Rendering the shell never writes to the location, in any state
    and for any authentication state: all its navigation is left to the
    route-access effect. *)
Theorem shell_render_never_navigates
        (children : option ReactNode) (s : Shell.State) (w : World) :
  navigations (snd (Shell.AppContent children s w)) = [].
Proof.
  destruct w as [[usr ld err ini] path]. run_shell.
  destruct (negb ini || ld || Shell.isCheckingDb s); [reflexivity|].
  destruct (Shell.dbStatus s) as [d|].
  - destruct (negb (Shell.connected d)); [reflexivity|].
    destruct (Js.narrow err) as [e|].
    { destruct (Js.includes e "deactivated" || Js.includes e "inactive");
        reflexivity. }
    destruct usr as [u|]; [|reflexivity].
    destruct (Js.strict_eq (metadata_status u) "inactive"); [reflexivity|].
    destruct (negb (Js.truthy (role u))); [reflexivity|].
    destruct (Shell.accessCheck s) as [c|]; [|reflexivity].
    destruct (negb (Shell.hasAccess c)); [|reflexivity].
    cbn -[Js.strict_eq].
    destruct (Js.strict_eq (Shell.redirectTo c) "/unauthorized"); reflexivity.
  - destruct (Js.narrow err) as [e|].
    { destruct (Js.includes e "deactivated" || Js.includes e "inactive");
        reflexivity. }
    destruct usr as [u|]; [|reflexivity].
    destruct (Js.strict_eq (metadata_status u) "inactive"); [reflexivity|].
    destruct (negb (Js.truthy (role u))); [reflexivity|].
    destruct (Shell.accessCheck s) as [c|]; [|reflexivity].
    destruct (negb (Shell.hasAccess c)); [|reflexivity].
    cbn -[Js.strict_eq].
    destruct (Js.strict_eq (Shell.redirectTo c) "/unauthorized"); reflexivity.
Qed.

(** X8.  The route-access effect navigates at most once, and only for a
    present principal whom the route guard refuses with a non-empty
    redirect target other than "/unauthorized"; the target it assigns is
    the guard's, and the guard is asked about the current path. *)
Theorem effect_navigation_is_guards_redirect `{Shell.RouteGuard}
        (s : Shell.State) (w : World) (target : string) :
  In target (navigations (snd (Shell.checkRouteAccess s w))) ->
  navigations (snd (Shell.checkRouteAccess s w)) = [target]
  /\ target <> "/unauthorized" /\ target <> ""
  /\ exists u,
       user (auth w) = Some u
       /\ Shell.hasAccess
            (Shell.checkAccess u (Shell.getRouteConfig (pathname w))) = false
       /\ Shell.redirectTo
            (Shell.checkAccess u (Shell.getRouteConfig (pathname w))) = Some target.
Proof.
  destruct w as [[usr ld err ini] path]. run_shell.
  destruct usr as [u|]; [|intros []].
  cbn -[Js.narrow String.eqb].
  destruct (Shell.hasAccess (Shell.checkAccess u (Shell.getRouteConfig path)))
    eqn:Hacc; [intros []|].
  destruct (Js.narrow (Shell.redirectTo
                         (Shell.checkAccess u (Shell.getRouteConfig path))))
    as [t|] eqn:Hred; [|intros []].
  apply narrow_some in Hred. destruct Hred as [Hred Hne].
  destruct (String.eqb_spec t "/unauthorized") as [Heq|Hneq]; [intros []|].
  cbn. intros [<-|[]]. repeat split; try assumption.
  exists u. repeat split; assumption.
Qed.

Lemma effect_navigation_is_guards_redirect_witness :
  navigations (snd (@Shell.checkRouteAccess strict_guard Shell.initial_state
                      (resolved (Some teacher) None))) = ["/login"]
  /\ "/login" <> "/unauthorized" /\ "/login" <> ""
  /\ exists u,
       user (auth (resolved (Some teacher) None)) = Some u
       /\ Shell.hasAccess
            (@Shell.checkAccess strict_guard u
               (@Shell.getRouteConfig strict_guard
                  (pathname (resolved (Some teacher) None)))) = false
       /\ Shell.redirectTo
            (@Shell.checkAccess strict_guard u
               (@Shell.getRouteConfig strict_guard
                  (pathname (resolved (Some teacher) None)))) = Some "/login".
Proof.
  apply (@effect_navigation_is_guards_redirect strict_guard Shell.initial_state
           (resolved (Some teacher) None) "/login").
  left. reflexivity.
Defined.

(** X9.  The shell never shows the database-error view: the cells that
    would select it ([dbStatus], [isCheckingDb]) keep their initial
    values in every state the component can reach, since nothing ever
    calls their setters. *)
Theorem shell_never_shows_database_error `{Shell.RouteGuard}
        (children : option ReactNode) (s : Shell.State) (w : World) (e : string) :
  Shell.reachable s ->
  fst (Shell.AppContent children s w) <> Shell.DatabaseErrorState e.
Proof.
  intros Hs. rewrite (shell_view_unfold children s w Hs). cbv zeta.
  destruct (negb (isInitialized (auth w)) || isLoading (auth w));
    [discriminate|].
  destruct (Js.narrow (error (auth w))) as [e'|].
  { destruct (Js.includes e' "deactivated" || Js.includes e' "inactive");
      discriminate. }
  destruct (user (auth w)) as [u|]; [|discriminate].
  destruct (Js.strict_eq (metadata_status u) "inactive"); [discriminate|].
  destruct (negb (Js.truthy (role u))); [discriminate|].
  destruct (Shell.accessCheck s) as [c|]; [|discriminate].
  destruct (Shell.hasAccess c); [discriminate|].
  destruct (Js.strict_eq (Shell.redirectTo c) "/unauthorized"); discriminate.
Qed.

Lemma shell_never_shows_database_error_witness :
  fst (Shell.AppContent None
         (fst (@Shell.checkRouteAccess strict_guard Shell.initial_state
                 (resolved (Some teacher) None)))
         (resolved (Some teacher) None))
  <> Shell.DatabaseErrorState "Connection failed".
Proof.
  apply (@shell_never_shows_database_error strict_guard).
  apply Shell.reach_effect. apply Shell.reach_initial.
Defined.

(** X10.  In a reachable state the shell shows the main layout exactly
    when authentication is initialised and resolved without error, the
    principal is present, not inactive and bears a non-empty role, and
    the stored access check is either still empty or grants access.  In
    particular, before the first access check has been stored, the
    layout is shown without the route guard having been asked. *)
Theorem shell_layout_iff `{Shell.RouteGuard}
        (children : option ReactNode) (s : Shell.State) (w : World) :
  Shell.reachable s ->
  ((exists c, fst (Shell.AppContent children s w) = Shell.Layout c) <->
   isInitialized (auth w) = true /\ isLoading (auth w) = false
   /\ Js.truthy (error (auth w)) = false
   /\ (exists u, user (auth w) = Some u
                 /\ metadata_status u <> Some "inactive"
                 /\ Js.truthy (role u) = true)
   /\ (Shell.accessCheck s = None
       \/ exists c, Shell.accessCheck s = Some c /\ Shell.hasAccess c = true)).
Proof.
  intros Hs. rewrite (shell_view_unfold children s w Hs). cbv zeta.
  rewrite (narrow_truthy (error (auth w))).
  destruct (isInitialized (auth w)), (isLoading (auth w)); cbn [negb orb];
    try (split; [intros [c Hc]; discriminate
                | intros (H1 & H2 & _); discriminate]).
  destruct (Js.narrow (error (auth w))) as [e|].
  { split; [|intros (_ & _ & H3 & _); discriminate].
    destruct (Js.includes e "deactivated" || Js.includes e "inactive");
      intros [c Hc]; discriminate. }
  destruct (user (auth w)) as [u|].
  2:{ split; [intros [c Hc]; discriminate
             | intros (_ & _ & _ & (u & Hu & _) & _); discriminate]. }
  destruct (Js.strict_eq (metadata_status u) "inactive") eqn:Hst.
  { apply strict_eq_true_iff in Hst.
    split; [intros [c Hc]; discriminate|].
    intros (_ & _ & _ & (u' & Hu & Hne & _) & _). injection Hu as <-.
    contradiction. }
  apply strict_eq_false_iff in Hst.
  destruct (Js.truthy (role u)) eqn:Hrole; cbn [negb].
  2:{ split; [intros [c Hc]; discriminate|].
      intros (_ & _ & _ & (u' & Hu & _ & Hr) & _). injection Hu as <-.
      congruence. }
  destruct (Shell.accessCheck s) as [c|].
  - destruct (Shell.hasAccess c) eqn:Hacc.
    + split; [intros _|intros _; eauto].
      repeat split. { exists u. repeat split; assumption. }
      right. exists c. split; [reflexivity | assumption].
    + split.
      * destruct (Js.strict_eq (Shell.redirectTo c) "/unauthorized");
          intros [c' Hc]; discriminate.
      * intros (_ & _ & _ & _ & [Hn | (c' & Hc & Hacc')]); [discriminate|].
        injection Hc as <-. congruence.
  - split; [intros _|intros _; eauto].
    repeat split. { exists u. repeat split; assumption. }
    now left.
Qed.

Lemma shell_layout_iff_witness :
  (exists c, fst (Shell.AppContent (Some "page") Shell.initial_state
                    (resolved (Some teacher) None)) = Shell.Layout c).
Proof.
  apply (@shell_layout_iff strict_guard (Some "page") Shell.initial_state
           (resolved (Some teacher) None)).
  - apply Shell.reach_initial.
  - repeat split.
    + exists teacher. repeat split. discriminate.
    + now left.
Defined.

(** X11.  Once the route-access effect has run for a principal whom the
    route guard refuses, the next render in the same authentication
    state never shows the main layout: it shows the unauthorized page
    when the guard redirects to "/unauthorized", and otherwise one of the
    loading, deactivated or error views. *)
Theorem refused_principal_never_sees_layout `{Shell.RouteGuard}
        (children : option ReactNode) (s : Shell.State) (w : World) (u : User) :
  Shell.reachable s ->
  user (auth w) = Some u ->
  Shell.hasAccess (Shell.checkAccess u (Shell.getRouteConfig (pathname w))) = false ->
  (forall c, fst (Shell.AppContent children (fst (Shell.checkRouteAccess s w)) w)
             <> Shell.Layout c)
  /\ (isInitialized (auth w) = true -> isLoading (auth w) = false ->
      Js.truthy (error (auth w)) = false ->
      metadata_status u <> Some "inactive" -> Js.truthy (role u) = true ->
      fst (Shell.AppContent children (fst (Shell.checkRouteAccess s w)) w) =
      if Js.strict_eq
           (Shell.redirectTo (Shell.checkAccess u (Shell.getRouteConfig (pathname w))))
           "/unauthorized"
      then Shell.UnauthorizedPage else Shell.LoadingScreen).
Proof.
  intros Hs Hu Hacc.
  assert (Hs' : Shell.reachable (fst (Shell.checkRouteAccess s w)))
    by (now apply Shell.reach_effect).
  assert (Hcell : Shell.accessCheck (fst (Shell.checkRouteAccess s w))
                  = Some (Shell.checkAccess u (Shell.getRouteConfig (pathname w)))).
  { destruct w as [[usr ld err ini] path]. simpl in Hu, Hacc. subst usr.
    run_shell. rewrite Hacc. cbn -[Js.narrow String.eqb].
    destruct (Js.narrow _) as [t|]; [|reflexivity].
    destruct (t =? "/unauthorized"); reflexivity. }
  rewrite (shell_view_unfold children _ w Hs'). cbv zeta.
  rewrite Hcell, Hu, Hacc. split.
  - intros c.
    destruct (negb (isInitialized (auth w)) || isLoading (auth w));
      [discriminate|].
    destruct (Js.narrow (error (auth w))) as [e|].
    { destruct (Js.includes e "deactivated" || Js.includes e "inactive");
        discriminate. }
    destruct (Js.strict_eq (metadata_status u) "inactive"); [discriminate|].
    destruct (negb (Js.truthy (role u))); [discriminate|].
    destruct (Js.strict_eq _ "/unauthorized"); discriminate.
  - intros Hini Hld Herr Hst Hrole.
    rewrite narrow_truthy in Herr. apply strict_eq_false_iff in Hst.
    rewrite Hini, Hld, Hst, Hrole. cbn [negb orb].
    destruct (Js.narrow (error (auth w))); [discriminate|]. reflexivity.
Qed.

Lemma refused_principal_never_sees_layout_witness :
  fst (Shell.AppContent (Some "page")
         (fst (@Shell.checkRouteAccess strict_guard Shell.initial_state
                 (resolved (Some teacher) None)))
         (resolved (Some teacher) None)) = Shell.LoadingScreen.
Proof.
  apply (@refused_principal_never_sees_layout strict_guard (Some "page")
           Shell.initial_state (resolved (Some teacher) None) teacher).
  - apply Shell.reach_initial.
  - reflexivity.
  - reflexivity.
  - reflexivity.
  - reflexivity.
  - reflexivity.
  - discriminate.
  - reflexivity.
Defined.

(** X12.  On an initialised authentication state the shell and the gate
    classify alike up to the role check: while the gate is pending or
    redirecting the shell shows the loading screen, and the gate's
    deactivated-account, authentication-error and role-not-configured
    answers are the shell's views of the same name. *)
Theorem shell_agrees_with_gate `{Shell.RouteGuard}
        (children : option ReactNode) (s : Shell.State) (w : World) (p : Props) :
  Shell.reachable s -> isInitialized (auth w) = true ->
  match evaluate p w with
  | Pending | RedirectTo _ =>
      fst (Shell.AppContent children s w) = Shell.LoadingScreen
  | DeactivatedAccountView =>
      fst (Shell.AppContent children s w) = Shell.DeactivatedAccountMessage
  | Deny (AuthenticationError e) =>
      fst (Shell.AppContent children s w) = Shell.AuthenticationErrorState e
  | Deny RoleNotConfigured =>
      fst (Shell.AppContent children s w) = Shell.AccountConfigurationErrorState
  | _ => True
  end.
Proof.
  intros Hs Hini. rewrite (shell_view_unfold children s w Hs), evaluate_unfold.
  cbv zeta. rewrite Hini. cbn [negb orb].
  destruct (isLoading (auth w)); [reflexivity|].
  destruct (Js.narrow (error (auth w))) as [e|].
  { destruct (Js.includes e "deactivated" || Js.includes e "inactive");
      reflexivity. }
  destruct (user (auth w)) as [u|]; [|reflexivity].
  destruct (Js.strict_eq (metadata_status u) "inactive"); [reflexivity|].
  rewrite (narrow_truthy (role u)).
  destruct (Js.narrow (role u)) as [r|]; [|reflexivity].
  destruct (Nat.ltb 0 (List.length (allowedRoles_of p))
            && negb (Js.array_includes (allowedRoles_of p) r)); [exact I|].
  destruct (requireSchoolAssignment_of p && negb (Js.truthy (school_id u))
            && negb (Js.array_includes ["edufam_admin"] r)); exact I.
Qed.

Lemma shell_agrees_with_gate_witness :
  fst (Shell.AppContent None Shell.initial_state
         (resolved (Some roleless) None))
  = Shell.AccountConfigurationErrorState.
Proof.
  apply (@shell_agrees_with_gate strict_guard None Shell.initial_state
           (resolved (Some roleless) None) staff_route).
  - apply Shell.reach_initial.
  - reflexivity.
Defined.

(** ** The admin schools query: guards, retries, validation *)

Lemma rbind_ok {A} (m : Result A) : rbind m (fun x => ok x) = m.
Proof. destruct m; reflexivity. Qed.

(** X13.  The query is enabled exactly for a principal whose role is
    "edufam_admin", and exactly then do the guards of the query function
    pass: an enabled query is the wrapped fetch, and a query that is not
    enabled throws a fixed error without the wrapper, the parameter check
    or the remote procedure having any say. *)
Theorem enabled_iff_guards_pass
        (validateQueryParams : option string -> string -> Result unit)
        (execute : (nat -> Result (list Value)) -> Result (list Value))
        (rpc : nat -> RpcResponse) (usr : option User) :
  (enabled usr = true <-> exists u, usr = Some u /\ role u = Some "edufam_admin")
  /\ (enabled usr = true ->
      exists u, usr = Some u
                /\ queryFn validateQueryParams execute rpc usr
                   = execute (fetchSchools validateQueryParams rpc u "edufam_admin"))
  /\ (enabled usr = false ->
      exists m, forall validate' execute' rpc',
          queryFn validate' execute' rpc' usr = throw (Error m)).
Proof.
  unfold enabled, queryFn. destruct usr as [u|].
  2:{ repeat split; try discriminate.
      - intros (u & Hu & _). discriminate.
      - intros _. eexists. reflexivity. }
  rewrite (narrow_truthy (role u)).
  destruct (Js.narrow (role u)) as [r|] eqn:Hr.
  - apply narrow_some in Hr. destruct Hr as [Hr Hne]. rewrite Hr.
    cbn -[String.eqb].
    destruct (String.eqb_spec r "edufam_admin") as [->|Hneq]; cbn [negb].
    + repeat split; try discriminate.
      * intros _. now exists u.
      * intros _. exists u. split; [reflexivity | apply rbind_ok].
    + repeat split; try discriminate.
      * intros (u' & Hu & Hrole). injection Hu as <-. congruence.
      * intros _. eexists. reflexivity.
  - cbn [andb]. repeat split; try discriminate.
    + intros (u' & Hu & Hrole). injection Hu as <-.
      assert (Js.narrow (role u) = Some "edufam_admin")
        by (apply narrow_some; split; [assumption | discriminate]).
      congruence.
    + intros _. eexists. reflexivity.
Qed.

(** X14.  What the query throws when its guards refuse, and whether that
    is retried: a missing principal and a non-admin role are refused with
    errors that are never retried, whereas a principal whose role is not
    loaded yet is refused with an error that is retried while fewer than
    two attempts have failed. *)
Theorem guard_refusals_and_retry
        (validateQueryParams : option string -> string -> Result unit)
        (execute : (nat -> Result (list Value)) -> Result (list Value))
        (rpc : nat -> RpcResponse) (usr : option User)
        (message : string) (failureCount : nat) :
  enabled usr = false ->
  queryFn validateQueryParams execute rpc usr = throw (Error message) ->
  retry failureCount message =
  match usr with
  | None => false
  | Some u => if Js.truthy (role u) then false else Nat.ltb failureCount 2
  end.
Proof.
  unfold enabled, queryFn. destruct usr as [u|].
  2:{ intros _ H. injection H as <-. reflexivity. }
  rewrite (narrow_truthy (role u)).
  destruct (Js.narrow (role u)) as [r|] eqn:Hr.
  - apply narrow_some in Hr. destruct Hr as [Hr Hne]. rewrite Hr.
    cbn -[String.eqb].
    destruct (r =? "edufam_admin"); [discriminate|].
    intros _ H. injection H as <-. reflexivity.
  - intros _ H. injection H as <-. reflexivity.
Qed.

Lemma guard_refusals_and_retry_witness :
  retry 0 "User role not loaded yet" = true.
Proof.
  apply (guard_refusals_and_retry (fun _ _ => ok tt) retry_once flaky_rpc
           (Some roleless) "User role not loaded yet" 0).
  - reflexivity.
  - reflexivity.
Defined.

(** X15.  A failed query is retried exactly when fewer than two attempts
    have failed and the error message contains neither "authentication"
    nor "Access denied": never a third time, and never after an
    authentication or permission error. *)
Theorem retry_iff (failureCount : nat) (message : string) :
  retry failureCount message = true <->
  (failureCount < 2)%nat
  /\ ~ contains message "authentication"
  /\ ~ contains message "Access denied".
Proof.
  unfold retry. rewrite <- !includes_false_iff.
  destruct (Js.includes message "authentication");
    destruct (Js.includes message "Access denied"); cbn [orb].
  - split; [discriminate | intros (_ & H & _); discriminate].
  - split; [discriminate | intros (_ & H & _); discriminate].
  - split; [discriminate | intros (_ & _ & H); discriminate].
  - rewrite Nat.ltb_lt. split; [intros H; repeat split; assumption | tauto].
Qed.

(** X16.  The delay before a retry starts at one second, doubles with
    each attempt and is capped at thirty seconds: for a non-negative
    attempt index it lies between 1000 and 30000, equals
    [1000 * 2 ^ attemptIndex] up to index 4 and 30000 from index 5 on,
    and never decreases. *)
Theorem retryDelay_bounds (attemptIndex : Z) :
  (0 <= attemptIndex)%Z ->
  (1000 <= retryDelay attemptIndex <= 30000)%Z
  /\ (attemptIndex <= 4 -> retryDelay attemptIndex = 1000 * 2 ^ attemptIndex)%Z
  /\ (5 <= attemptIndex -> retryDelay attemptIndex = 30000)%Z
  /\ (forall later, attemptIndex <= later ->
                    retryDelay attemptIndex <= retryDelay later)%Z.
Proof.
  intros Hnn. unfold retryDelay.
  assert (Hpos : (1 <= 2 ^ attemptIndex)%Z)
    by (change 1%Z with (2 ^ 0)%Z; apply Z.pow_le_mono_r; lia).
  repeat split.
  - apply Z.min_glb; lia.
  - apply Z.le_min_r.
  - intros Hle. apply Z.min_l.
    assert (2 ^ attemptIndex <= 2 ^ 4)%Z by (apply Z.pow_le_mono_r; lia).
    change (2 ^ 4)%Z with 16%Z in H. lia.
  - intros Hge. apply Z.min_r.
    assert (2 ^ 5 <= 2 ^ attemptIndex)%Z by (apply Z.pow_le_mono_r; lia).
    change (2 ^ 5)%Z with 32%Z in H. lia.
  - intros later Hle.
    assert (2 ^ attemptIndex <= 2 ^ later)%Z by (apply Z.pow_le_mono_r; lia).
    apply Z.min_le_compat_r. lia.
Qed.

Lemma retryDelay_bounds_witness :
  (1000 <= retryDelay 3 <= 30000)%Z
  /\ (3 <= 4 -> retryDelay 3 = 1000 * 2 ^ 3)%Z
  /\ (5 <= 3 -> retryDelay 3 = 30000)%Z
  /\ (forall later, 3 <= later -> retryDelay 3 <= retryDelay later)%Z.
Proof.
  apply (retryDelay_bounds 3). lia.
Defined.

Lemma filter_keeps_idempotent (xs : list Value) :
  filter keeps (filter keeps xs) = filter keeps xs.
Proof.
  induction xs as [|x xs IH]; [reflexivity|].
  simpl. destruct (keeps x) eqn:Hx; [|exact IH].
  simpl. rewrite Hx. now rewrite IH.
Qed.

Lemma filter_keeps_length (xs : list Value) :
  (List.length (filter keeps xs) <= List.length xs)%nat.
Proof.
  induction xs as [|x xs IH]; [reflexivity|].
  simpl. destruct (keeps x); simpl; lia.
Qed.

(** X17.  Validation only drops rows and is stable: the array a run of
    the fetch returns is never longer than the array the backend sent,
    and sending that result through the fetch again returns it
    unchanged. *)
Theorem validation_is_stable
        (validateQueryParams : option string -> string -> Result unit)
        (rpc rpc' : nat -> RpcResponse) (u : User) (r : string) (k k' : nat)
        (schools : list Value) :
  fetchSchools validateQueryParams rpc u r k = ok schools ->
  rpc' k' = mkRpcResponse (JArray schools) None ->
  fetchSchools validateQueryParams rpc' u r k' = ok schools
  /\ (List.length schools <= List.length (as_array (data (rpc k))))%nat.
Proof.
  intros Hrun Hresp.
  assert (Hv : validateQueryParams (id u) r = ok tt).
  { unfold fetchSchools in Hrun.
    destruct (validateQueryParams (id u) r) as [e|[]];
      [discriminate | reflexivity]. }
  apply fetchSchools_ok_inv in Hrun. destruct Hrun as [_ ->]. split.
  - rewrite (fetchSchools_succeeds validateQueryParams rpc' u r k' Hv)
      by (now rewrite Hresp).
    rewrite Hresp. simpl. now rewrite filter_keeps_idempotent.
  - apply filter_keeps_length.
Qed.

Lemma validation_is_stable_witness :
  fetchSchools (fun _ _ => ok tt) (fun _ => mkRpcResponse (JArray kept_rows) None)
               unassigned_admin "edufam_admin" 0 = ok kept_rows
  /\ (List.length kept_rows <= List.length (as_array (data (flaky_rpc 1))))%nat.
Proof.
  apply (validation_is_stable (fun _ _ => ok tt) flaky_rpc
           (fun _ => mkRpcResponse (JArray kept_rows) None)
           unassigned_admin "edufam_admin" 1 0 kept_rows); reflexivity.
Defined.

(** ** The sidebar label *)

(** X18.  The label lookup rewrites exactly the six role tags: a string
    is returned unchanged if and only if it is not one of them, no label
    is itself a tag, so applying the lookup twice is the same as applying
    it once. *)
Theorem getRoleDisplay_changes_exactly_the_tags (r : string) :
  (getRoleDisplay r = r <-> ~ In r role_tags)
  /\ getRoleDisplay (getRoleDisplay r) = getRoleDisplay r.
Proof.
  unfold getRoleDisplay at 1 3 4.
  destruct (String.eqb_spec r "school_director") as [->|H1].
  { split; [split; [discriminate | intros Hn; exfalso; apply Hn; simpl; auto]
           | reflexivity]. }
  destruct (String.eqb_spec r "principal") as [->|H2].
  { split; [split; [discriminate | intros Hn; exfalso; apply Hn; simpl; auto]
           | reflexivity]. }
  destruct (String.eqb_spec r "teacher") as [->|H3].
  { split; [split; [discriminate | intros Hn; exfalso; apply Hn; simpl; auto]
           | reflexivity]. }
  destruct (String.eqb_spec r "parent") as [->|H4].
  { split; [split; [discriminate | intros Hn; exfalso; apply Hn; simpl; auto]
           | reflexivity]. }
  destruct (String.eqb_spec r "finance_officer") as [->|H5].
  { split; [split; [discriminate | intros Hn; exfalso; apply Hn; simpl; tauto]
           | reflexivity]. }
  destruct (String.eqb_spec r "edufam_admin") as [->|H6].
  { split; [split; [discriminate | intros Hn; exfalso; apply Hn; simpl; tauto]
           | reflexivity]. }
  split.
  - split; [|reflexivity]. intros _ Hin. simpl in Hin.
    destruct Hin as [E|[E|[E|[E|[E|[E|[]]]]]]]; symmetry in E; contradiction.
  - unfold getRoleDisplay.
    apply String.eqb_neq in H1, H2, H3, H4, H5, H6.
    now rewrite H1, H2, H3, H4, H5, H6.
Qed.

Lemma getRoleDisplay_empty_iff (r : string) : getRoleDisplay r = "" <-> r = "".
Proof.
  unfold getRoleDisplay.
  destruct (String.eqb_spec r "school_director") as [->|_];
    [split; discriminate|].
  destruct (String.eqb_spec r "principal") as [->|_]; [split; discriminate|].
  destruct (String.eqb_spec r "teacher") as [->|_]; [split; discriminate|].
  destruct (String.eqb_spec r "parent") as [->|_]; [split; discriminate|].
  destruct (String.eqb_spec r "finance_officer") as [->|_];
    [split; discriminate|].
  destruct (String.eqb_spec r "edufam_admin") as [->|_]; [split; discriminate|].
  reflexivity.
Qed.

(** X19.  The sidebar header tolerates a missing principal and a missing
    role: it then shows an empty label, and only then; for a principal
    with a non-empty role it shows that role's label.  It writes nothing
    to the console or the location. *)
Theorem sidebar_label_blank_iff (w : World) :
  (fst (SidebarHeader w) = "" <->
   match user (auth w) with
   | Some u => Js.truthy (role u) = false
   | None => True
   end)
  /\ (forall u r, user (auth w) = Some u -> role u = Some r -> r <> "" ->
                  fst (SidebarHeader w) = getRoleDisplay r)
  /\ snd (SidebarHeader w) = [].
Proof.
  unfold SidebarHeader, bind, ret, useAuth. cbn -[getRoleDisplay Js.narrow Js.truthy].
  repeat split.
  - destruct (user (auth w)) as [u|]; [|trivial].
    rewrite (narrow_truthy (role u)).
    destruct (Js.narrow (role u)) as [r|] eqn:Hr; [|reflexivity].
    apply narrow_some in Hr. destruct Hr as [_ Hne].
    intros H. apply (proj1 (getRoleDisplay_empty_iff r)) in H. contradiction.
  - destruct (user (auth w)) as [u|]; [|reflexivity].
    rewrite (narrow_truthy (role u)).
    destruct (Js.narrow (role u)) as [r|]; [discriminate | reflexivity].
  - intros u r Hu Hr Hne. rewrite Hu.
    assert (Hn : Js.narrow (role u) = Some r) by (apply narrow_some; auto).
    now rewrite Hn.
Qed.

(** ** What else the decision and the stored check depend on *)

(** X20.  Of the principal, the gate's decision reads only the role,
    the status metadata and whether a school is assigned: two principals
    that agree on these get the same decision under the same
    requirement and authentication flags, whatever their identifiers,
    e-mail addresses and schools. *)
Theorem decision_ignores_identity (p : Props) (w w' : World) (u u' : User) :
  user (auth w) = Some u -> user (auth w') = Some u' ->
  isLoading (auth w) = isLoading (auth w') ->
  error (auth w) = error (auth w') ->
  role u = role u' ->
  metadata_status u = metadata_status u' ->
  Js.truthy (school_id u) = Js.truthy (school_id u') ->
  evaluate p w = evaluate p w'.
Proof.
  intros Hu Hu' Hld Herr Hrole Hst Hsch. rewrite !evaluate_unfold. cbv zeta.
  now rewrite Hu, Hu', Hld, Herr, Hrole, Hst, Hsch.
Qed.

Lemma decision_ignores_identity_witness :
  evaluate school_route (resolved (Some teacher) None)
  = evaluate school_route
      (resolved (Some (mkUser None None (Some "teacher") (Some "school-9")
                              (Some (mkUserMetadata (Some "active"))))) None).
Proof.
  apply (decision_ignores_identity school_route
           (resolved (Some teacher) None)
           (resolved (Some (mkUser None None (Some "teacher") (Some "school-9")
                                   (Some (mkUserMetadata (Some "active"))))) None)
           teacher
           (mkUser None None (Some "teacher") (Some "school-9")
                   (Some (mkUserMetadata (Some "active")))));
    reflexivity.
Defined.

(** Whether or not it navigates, the route-access effect stores
    the route guard's verdict for the current principal and path, clears
    the stored verdict when no principal is present, and leaves the
    other cells of the component alone. *)
Theorem effect_stores_guard_verdict `{Shell.RouteGuard} (s : Shell.State) (w : World) :
  Shell.accessCheck (fst (Shell.checkRouteAccess s w))
  = option_map (fun u => Shell.checkAccess u (Shell.getRouteConfig (pathname w)))
               (user (auth w))
  /\ Shell.showLogin (fst (Shell.checkRouteAccess s w)) = Shell.showLogin s
  /\ Shell.dbStatus (fst (Shell.checkRouteAccess s w)) = Shell.dbStatus s
  /\ Shell.isCheckingDb (fst (Shell.checkRouteAccess s w)) = Shell.isCheckingDb s.
Proof.
  destruct w as [[usr ld err ini] path]. run_shell.
  destruct usr as [u|]; [|repeat split].
  cbn -[Js.narrow String.eqb].
  destruct (Shell.hasAccess _); [repeat split|].
  destruct (Js.narrow _) as [t|]; [|repeat split].
  destruct (t =? "/unauthorized"); repeat split.
Qed.

(** X21.  Once the route-access effect has run for a principal whom the
    route guard accepts, the effect has not navigated and the next render
    in the same, resolved authentication state shows the main layout
    with the children it was given (the default layout when it was
    given none). *)
Theorem accepted_principal_sees_layout `{Shell.RouteGuard}
        (children : option ReactNode) (s : Shell.State) (w : World) (u : User) :
  Shell.reachable s ->
  isInitialized (auth w) = true -> isLoading (auth w) = false ->
  Js.truthy (error (auth w)) = false ->
  user (auth w) = Some u ->
  metadata_status u <> Some "inactive" -> Js.truthy (role u) = true ->
  Shell.hasAccess (Shell.checkAccess u (Shell.getRouteConfig (pathname w))) = true ->
  navigations (snd (Shell.checkRouteAccess s w)) = []
  /\ fst (Shell.AppContent children (fst (Shell.checkRouteAccess s w)) w)
     = Shell.Layout (Js.narrow children).
Proof.
  intros Hs Hini Hld Herr Hu Hst Hrole Hacc.
  assert (Hs' : Shell.reachable (fst (Shell.checkRouteAccess s w)))
    by (now apply Shell.reach_effect).
  rewrite (shell_view_unfold children _ w Hs'). cbv zeta.
  rewrite narrow_truthy in Herr. apply strict_eq_false_iff in Hst.
  rewrite Hini, Hld, Hu, Hst, Hrole. cbn [negb orb].
  destruct (Js.narrow (error (auth w))); [discriminate|].
  destruct w as [[usr ld err ini] path]. simpl in Hu, Hacc. subst usr.
  run_shell. rewrite Hacc. cbn. rewrite Hacc. split; reflexivity.
Qed.

Lemma accepted_principal_sees_layout_witness :
  navigations
    (snd (@Shell.checkRouteAccess
            (Shell.mkRouteGuard string (fun path => path)
               (fun _ _ => Shell.mkAccessCheck true None None))
            Shell.initial_state (resolved (Some teacher) None))) = []
  /\ fst (Shell.AppContent (Some "page")
            (fst (@Shell.checkRouteAccess
                    (Shell.mkRouteGuard string (fun path => path)
                       (fun _ _ => Shell.mkAccessCheck true None None))
                    Shell.initial_state (resolved (Some teacher) None)))
            (resolved (Some teacher) None))
     = Shell.Layout (Js.narrow (Some "page")).
Proof.
  apply (@accepted_principal_sees_layout
           (Shell.mkRouteGuard string (fun path => path)
              (fun _ _ => Shell.mkAccessCheck true None None))
           (Some "page") Shell.initial_state (resolved (Some teacher) None) teacher).
  - apply Shell.reach_initial.
  - reflexivity.
  - reflexivity.
  - reflexivity.
  - reflexivity.
  - discriminate.
  - reflexivity.
  - reflexivity.
Defined.
